(** * Presence client of the profile page (src/lanyard-integration.js)

    A shallow embedding of the [LanyardIntegration] class: the renderer
    ([updateStatus], [updateActivity]), the fallback generator
    ([useFallback]) and the connection manager ([init],
    [fetchInitialStatus], [connectWebSocket] with its four handlers,
    [attemptReconnect]).

    The browser is the explicit state: the four page elements the class
    touches, the console, the timers registered with [setTimeout] and
    [setInterval], and the frames handed to [WebSocket.send].  Methods are
    computations in a state-and-exception monad in which, as in JavaScript,
    whatever was written before a [throw] stays written. *)

From Stdlib Require Import ZArith QArith List String Bool Lia.
Import ListNotations.
Open Scope string_scope.
Open Scope list_scope.
Open Scope Z_scope.

(** ** JavaScript values *)

(** A property that holds a string when it is there: [activity.details],
    [activity.state], and whatever ends up assigned to a style property. *)
Inductive jsstr : Type :=
| JUndefined
| JNull
| JStr (s : string).

(** [v ? _ : _] and [_ && v]: only a non-empty string is truthy. *)
Definition truthy (v : jsstr) : bool :=
  match v with
  | JStr s => negb (s =? EmptyString)%string
  | _ => false
  end.

(** [`${v}`] inside a template literal. *)
Definition interpolate (v : jsstr) : string :=
  match v with
  | JUndefined => "undefined"
  | JNull => "null"
  | JStr s => s
  end.

(** The errors the class can meet; [error_name] is [error.name]. *)
Inductive exn : Type :=
| TypeError      (* property of null/undefined; fetch network failure *)
| SyntaxError    (* JSON.parse / response.json() on text that is not JSON *)
| AbortError.    (* the fetch was aborted by the 5 s timer *)

Definition error_name (e : exn) : string :=
  match e with
  | TypeError => "TypeError"
  | SyntaxError => "SyntaxError"
  | AbortError => "AbortError"
  end.

(** ** Data model *)

Record emoji_t : Type := { emoji_name : string }.

(** ActivityDescriptor as the renderer reads it: [type], [name],
    [details], [state], [emoji]. *)
Record activity : Type := {
  type : Z;
  name : string;
  details : jsstr;
  state : jsstr;
  emoji : option emoji_t
}.

(** PresenceSnapshot; [activities = None] is a snapshot without the
    property, which [userData.activities || []] turns into the empty list. *)
Record PresenceSnapshot : Type := {
  discord_status : string;
  activities : option (list activity)
}.

(** One entry of the [statusConfig] literal. *)
Record config : Type := { color : string; text : string; shadow : string }.

(** ** The page *)

(** [.status-dot]: the two style properties the renderer assigns. *)
Record status_dot_el : Type := { background : jsstr; boxShadow : jsstr }.

(** [.status-text]: [textContent] and [style.color]. *)
Record status_text_el : Type := { textContent : jsstr; text_color : jsstr }.

(** The [<div class="activity-info">] block written into [innerHTML]:
    one span per class. *)
Record activity_info : Type := {
  activity_type : string;
  activity_name : string;
  activity_details : option string
}.

(** [.discord-activity]: [innerHTML] ([None]: no activity-info block
    written yet) and [style.display]. *)
Record activity_el : Type := {
  innerHTML : option activity_info;
  display : string
}.

(** The elements [document.querySelector] is asked for.  A property holds
    the value the script assigned last (or the page's own). *)
Record DOM : Type := {
  status_dot : option status_dot_el;
  status_text : option status_text_el;
  discord_activity : option activity_el;
  profile_info : bool
}.

(** ** Console, timers, frames *)

Inductive log_entry : Type :=
| LogUnavailable                                   (* line 16 *)
| LogTimedOut                                      (* line 40 *)
| LogFetchError (e : exn)                          (* line 42 *)
| LogConnected                                     (* line 52 *)
| LogMessage                                       (* line 66 *)
| LogClosed (code : Z) (reason : string)           (* line 77 *)
| LogSocketError                                   (* line 84 *)
| LogReconnectAttempt (n : Z)                      (* line 92 *)
| LogMaxAttempts                                   (* line 98 *)
| LogUpdateStatus (u : option PresenceSnapshot)                   (* line 104 *)
| LogElementsNotFound                              (* line 110 *)
| LogDiscordStatus (s : string) (a : list activity) (* line 117 *)
| LogFallbackMode                                  (* line 193 *)
| LogFallbackStatus (s : string).                  (* line 206 *)

(** The three closures handed to a timer. *)
Inductive callback : Type :=
| AbortFetch             (* () => controller.abort()        line 24  *)
| Reconnect              (* () => this.connectWebSocket()   line 94  *)
| UpdateFallbackStatus.  (* updateFallbackStatus            line 211 *)

Record timer : Type := { handler : callback; delay : Z }.

(** Frames passed to [websocket.send]. *)
Inductive frame : Type :=
| Subscribe (subscribe_to_id : string)   (* {op: 2, d: {subscribe_to_id}} *)
| HeartbeatAck.                          (* {op: 3} *)

(** ** State: the instance and the browser around it *)

Record world : Type := {
  (* this.* *)
  userId : string;
  websocket : option nat;        (* null, or the n-th socket constructed *)
  reconnectAttempts : Z;
  (* the browser *)
  document : DOM;
  console : list log_entry;      (* oldest first *)
  timeouts : list timer;         (* every setTimeout call, oldest first *)
  cleared : list nat;            (* ids passed to clearTimeout *)
  intervals : list timer;        (* every setInterval call, oldest first *)
  sockets : nat;                 (* WebSocket objects constructed so far *)
  sent : list frame              (* oldest first *)
}.

(** [this.maxReconnectAttempts]: assigned once, in the constructor (line 7),
    and never again. *)
Definition maxReconnectAttempts : Z := 5.

Definition set_websocket (v : option nat) (w : world) : world :=
  {| userId := userId w; websocket := v;
     reconnectAttempts := reconnectAttempts w; document := document w;
     console := console w; timeouts := timeouts w; cleared := cleared w;
     intervals := intervals w; sockets := sockets w; sent := sent w |}.

Definition set_reconnectAttempts (v : Z) (w : world) : world :=
  {| userId := userId w; websocket := websocket w;
     reconnectAttempts := v; document := document w;
     console := console w; timeouts := timeouts w; cleared := cleared w;
     intervals := intervals w; sockets := sockets w; sent := sent w |}.

Definition set_document (v : DOM) (w : world) : world :=
  {| userId := userId w; websocket := websocket w;
     reconnectAttempts := reconnectAttempts w; document := v;
     console := console w; timeouts := timeouts w; cleared := cleared w;
     intervals := intervals w; sockets := sockets w; sent := sent w |}.

Definition set_console (v : list log_entry) (w : world) : world :=
  {| userId := userId w; websocket := websocket w;
     reconnectAttempts := reconnectAttempts w; document := document w;
     console := v; timeouts := timeouts w; cleared := cleared w;
     intervals := intervals w; sockets := sockets w; sent := sent w |}.

Definition set_timeouts (v : list timer) (w : world) : world :=
  {| userId := userId w; websocket := websocket w;
     reconnectAttempts := reconnectAttempts w; document := document w;
     console := console w; timeouts := v; cleared := cleared w;
     intervals := intervals w; sockets := sockets w; sent := sent w |}.

Definition set_cleared (v : list nat) (w : world) : world :=
  {| userId := userId w; websocket := websocket w;
     reconnectAttempts := reconnectAttempts w; document := document w;
     console := console w; timeouts := timeouts w; cleared := v;
     intervals := intervals w; sockets := sockets w; sent := sent w |}.

Definition set_intervals (v : list timer) (w : world) : world :=
  {| userId := userId w; websocket := websocket w;
     reconnectAttempts := reconnectAttempts w; document := document w;
     console := console w; timeouts := timeouts w; cleared := cleared w;
     intervals := v; sockets := sockets w; sent := sent w |}.

Definition set_sockets (v : nat) (w : world) : world :=
  {| userId := userId w; websocket := websocket w;
     reconnectAttempts := reconnectAttempts w; document := document w;
     console := console w; timeouts := timeouts w; cleared := cleared w;
     intervals := intervals w; sockets := v; sent := sent w |}.

Definition set_sent (v : list frame) (w : world) : world :=
  {| userId := userId w; websocket := websocket w;
     reconnectAttempts := reconnectAttempts w; document := document w;
     console := console w; timeouts := timeouts w; cleared := cleared w;
     intervals := intervals w; sockets := sockets w; sent := v |}.

(** ** The monad: state, and exceptions that keep the state *)

Inductive completion (A : Type) : Type :=
| Normal (a : A)
| Throw (e : exn).
Arguments Normal {A} a.
Arguments Throw {A} e.

Definition M (A : Type) : Type := world -> completion A * world.

Definition ret {A} (a : A) : M A := fun w => (Normal a, w).

Definition bind {A B} (m : M A) (k : A -> M B) : M B :=
  fun w =>
    match m w with
    | (Normal a, w') => k a w'
    | (Throw e, w') => (Throw e, w')
    end.

Definition throw {A} (e : exn) : M A := fun w => (Throw e, w).

(** [try { body } catch (error) { recover error }] *)
Definition try_catch {A} (body : M A) (recover : exn -> M A) : M A :=
  fun w =>
    match body w with
    | (Normal a, w') => (Normal a, w')
    | (Throw e, w') => recover e w'
    end.

Definition gets {A} (f : world -> A) : M A := fun w => (Normal (f w), w).
Definition modify (f : world -> world) : M unit := fun w => (Normal tt, f w).

Declare Scope js_scope.
Delimit Scope js_scope with js.
Notation "x <- m ;; k" := (bind m (fun x => k))
  (at level 61, m at next level, right associativity) : js_scope.
Notation "m ;; k" := (bind m (fun _ => k))
  (at level 61, right associativity) : js_scope.
Open Scope js_scope.

(** The state a computation leaves behind, thrown or not. *)
Definition exec {A} (m : M A) (w : world) : world := snd (m w).
Definition outcome {A} (m : M A) (w : world) : completion A := fst (m w).

(** ** Host operations *)

Definition console_log (l : log_entry) : M unit :=
  modify (fun w => set_console (console w ++ [l]) w).

(** [setTimeout(cb, ms)]; the id is the position in [timeouts]. *)
Definition setTimeout (cb : callback) (ms : Z) : M nat :=
  id <- gets (fun w => List.length (timeouts w)) ;;
  modify (fun w => set_timeouts (timeouts w ++ [{| handler := cb; delay := ms |}]) w) ;;
  ret id.

Definition clearTimeout (id : nat) : M unit :=
  modify (fun w => set_cleared (cleared w ++ [id]) w).

Definition setInterval (cb : callback) (ms : Z) : M unit :=
  modify (fun w => set_intervals (intervals w ++ [{| handler := cb; delay := ms |}]) w).

(** [this.websocket.send(frame)]; [this.websocket] is [null] until
    [connectWebSocket] has run. *)
Definition websocket_send (f : frame) : M unit :=
  ws <- gets websocket ;;
  match ws with
  | None => throw TypeError
  | Some _ => modify (fun w => set_sent (sent w ++ [f]) w)
  end.

(** ** Presence Status Renderer *)

(** What [statusConfig[status]] can evaluate to: one of the four entries
    of the literal, a member every object inherits from
    [Object.prototype] (a function or an object: truthy, and without
    [color], [text] or [shadow]), or [undefined]. *)
Inductive property : Type :=
| Own (c : config)
| Inherited
| Undefined.

(** The literal of lines 119-124, in source order. *)
Definition statusConfig : list (string * config) :=
  [ ("online",  {| color := "#555"; text := "Online";  shadow := "0 0 5px #555" |});
    ("idle",    {| color := "#666"; text := "Away";    shadow := "0 0 5px #666" |});
    ("dnd",     {| color := "#777"; text := "Busy";    shadow := "0 0 5px #777" |});
    ("offline", {| color := "#333"; text := "Offline"; shadow := "0 0 5px #333" |}) ].

(** The property names of [Object.prototype], which an object literal
    inherits. *)
Definition Object_prototype : list string :=
  [ "constructor"; "__defineGetter__"; "__defineSetter__"; "hasOwnProperty";
    "__lookupGetter__"; "__lookupSetter__"; "isPrototypeOf";
    "propertyIsEnumerable"; "toString"; "valueOf"; "__proto__";
    "toLocaleString" ].

Fixpoint own_property (o : list (string * config)) (key : string) : option config :=
  match o with
  | [] => None
  | (k, c) :: o' => if (k =? key)%string then Some c else own_property o' key
  end.

(** [o[key]]: own properties first, then the prototype. *)
Definition get (o : list (string * config)) (key : string) : property :=
  match own_property o key with
  | Some c => Own c
  | None => if existsb (String.eqb key) Object_prototype then Inherited else Undefined
  end.

(** [a || b] on properties: [undefined] is the only falsy one. *)
Definition or_else (a b : property) : property :=
  match a with
  | Undefined => b
  | _ => a
  end.

(** [config.color], [config.shadow], [config.text]. *)
Definition read (field : config -> string) (p : property) : M jsstr :=
  match p with
  | Own c => ret (JStr (field c))
  | Inherited => ret JUndefined
  | Undefined => throw TypeError
  end.

Definition querySelector {A} (sel : DOM -> option A) : M (option A) :=
  gets (fun w => sel (document w)).

Definition set_status_dot (v : option status_dot_el) (d : DOM) : DOM :=
  {| status_dot := v; status_text := status_text d;
     discord_activity := discord_activity d; profile_info := profile_info d |}.

Definition set_status_text (v : option status_text_el) (d : DOM) : DOM :=
  {| status_dot := status_dot d; status_text := v;
     discord_activity := discord_activity d; profile_info := profile_info d |}.

Definition set_discord_activity (v : option activity_el) (d : DOM) : DOM :=
  {| status_dot := status_dot d; status_text := status_text d;
     discord_activity := v; profile_info := profile_info d |}.

(** Assignments through the element references the method holds. *)
Definition assign_statusDot (f : status_dot_el -> status_dot_el) : M unit :=
  modify (fun w => set_document
    (set_status_dot (option_map f (status_dot (document w))) (document w)) w).

Definition assign_statusText (f : status_text_el -> status_text_el) : M unit :=
  modify (fun w => set_document
    (set_status_text (option_map f (status_text (document w))) (document w)) w).

Definition assign_activityElement (f : activity_el -> activity_el) : M unit :=
  modify (fun w => set_document
    (set_discord_activity (option_map f (discord_activity (document w))) (document w)) w).

(** The three predicates handed to [activities.find] (lines 147-159). *)
Definition is_game (a : activity) : bool :=
  (type a =? 0) && negb (name a =? "Spotify")%string
                && negb (name a =? "Custom Status")%string.

Definition is_custom (a : activity) : bool := type a =? 4.

Definition is_spotify (a : activity) : bool := (name a =? "Spotify")%string.

(** The three template literals (lines 162-168, 171-177, 180-185). *)
Definition playing_html (gameActivity : activity) : activity_info :=
  {| activity_type := "Playing";
     activity_name := name gameActivity;
     activity_details :=
       if truthy (details gameActivity)
       then Some (interpolate (details gameActivity)) else None |}.

Definition listening_html (spotifyActivity : activity) : activity_info :=
  {| activity_type := "Listening to";
     activity_name := "Spotify";
     activity_details :=
       if truthy (details spotifyActivity)
       then Some (interpolate (details spotifyActivity) ++ " - "
                  ++ interpolate (state spotifyActivity))%string
       else None |}.

Definition status_html (customStatus : activity) : activity_info :=
  {| activity_type := "Status";
     activity_name :=
       ((match emoji customStatus with
         | Some e => emoji_name e ++ " "
         | None => EmptyString
         end) ++ interpolate (state customStatus))%string;
     activity_details := None |}.

Definition show (html : activity_info) : M unit :=
  assign_activityElement (fun el => {| innerHTML := Some html; display := display el |}) ;;
  assign_activityElement (fun el => {| innerHTML := innerHTML el; display := "block" |}).

Definition hide : M unit :=
  assign_activityElement (fun el => {| innerHTML := innerHTML el; display := "none" |}).

(** Lines 137-190. *)
Definition updateActivity (activities : list activity) (status : string) : M unit :=
  activityElement <- querySelector discord_activity ;;
  match activityElement with
  | Some _ => ret tt
  | None =>
      (* createElement('div'), then appendChild on whatever
         querySelector('.profile-info') returned *)
      parent <- gets (fun w => profile_info (document w)) ;;
      if (parent : bool)
      then modify (fun w => set_document
             (set_discord_activity (Some {| innerHTML := None; display := EmptyString |})
                (document w)) w)
      else throw TypeError
  end ;;
  let gameActivity := find is_game activities in
  let customStatus := find is_custom activities in
  let spotifyActivity := find is_spotify activities in
  let not_offline := negb (status =? "offline")%string in
  match gameActivity, not_offline with
  | Some g, true => show (playing_html g)
  | _, _ =>
      match spotifyActivity, not_offline with
      | Some s, true => show (listening_html s)
      | _, _ =>
          match customStatus with
          | Some c =>
              if truthy (state c) && not_offline
              then show (status_html c)
              else hide
          | None => hide
          end
      end
  end.

(** [activities || []] *)
Definition or_empty (a : option (list activity)) : list activity :=
  match a with
  | Some l => l
  | None => []
  end.

(** Lines 103-135.  The argument is [None] when the caller passes
    [undefined] (a data message without [d]). *)
Definition updateStatus (userData : option PresenceSnapshot) : M unit :=
  console_log (LogUpdateStatus userData) ;;
  statusDot <- querySelector status_dot ;;
  statusText <- querySelector status_text ;;
  match statusDot, statusText with
  | Some _, Some _ =>
      match userData with
      | None => throw TypeError          (* userData.discord_status *)
      | Some userData =>
          let status := discord_status userData in
          let activities := or_empty (activities userData) in
          console_log (LogDiscordStatus status activities) ;;
          let config := or_else (get statusConfig status) (get statusConfig "offline") in
          c <- read color config ;;
          assign_statusDot (fun el => {| background := c; boxShadow := boxShadow el |}) ;;
          sh <- read shadow config ;;
          assign_statusDot (fun el => {| background := background el; boxShadow := sh |}) ;;
          tx <- read text config ;;
          assign_statusText (fun el => {| textContent := tx; text_color := text_color el |}) ;;
          c' <- read color config ;;
          assign_statusText (fun el => {| textContent := textContent el; text_color := c' |}) ;;
          updateActivity activities status
      end
  | _, _ => console_log LogElementsNotFound
  end.

(** ** Fallback Status Generator *)

(** What the browser answers when a handler asks for the time and for a
    random number: [new Date().getHours()] and [Math.random()] (taken as a
    rational in [0, 1)). *)
Record env : Type := { getHours : Z; Math_random : Q }.

Definition gtQ (x y : Q) : bool := negb (Qle_bool x y).

(** The closure of lines 195-208. *)
Definition updateFallbackStatus (now : env) : M unit :=
  let hour := getHours now in
  let status :=
    if (9 <=? hour) && (hour <=? 23)
    then (if gtQ (Math_random now) (4 # 10) then "online" else "idle")
    else (if gtQ (Math_random now) (8 # 10) then "dnd" else "offline") in
  console_log (LogFallbackStatus status) ;;
  updateStatus (Some {| discord_status := status; activities := Some [] |}).

(** Lines 192-212. *)
Definition useFallback (now : env) : M unit :=
  console_log LogFallbackMode ;;
  updateFallbackStatus now ;;
  setInterval UpdateFallbackStatus 60000.

(** ** Presence Connection Manager *)

(** The body of the HTTP answer as [response.json()] delivers it. *)
Inductive body : Type :=
| NotJson                                     (* json() rejects *)
| JsonNull                                    (* the body is null *)
| Envelope (success : bool) (data : option PresenceSnapshot).

(** How [await fetch(...)] ends. *)
Inductive fetch_result : Type :=
| Rejected (error : exn)           (* TypeError: network; AbortError: 5 s timer *)
| Response (ok : bool) (json : body).

(** Lines 21-46.  The body of the [try] yields [Some true] where the
    source returns from inside it and [None] where it falls through. *)
Definition fetchInitialStatus (r : fetch_result) : M bool :=
  returned <-
    try_catch
      (timeoutId <- setTimeout AbortFetch 5000 ;;
       match r with
       | Rejected error => throw error
       | Response ok json =>
           clearTimeout timeoutId ;;
           if ok
           then
             match json with
             | NotJson => throw SyntaxError
             | JsonNull => throw TypeError        (* data.success *)
             | Envelope success data =>
                 if success
                 then updateStatus data ;; ret (Some true)
                 else ret None
             end
           else ret None
       end)
      (fun error =>
         (if (error_name error =? "AbortError")%string
          then console_log LogTimedOut
          else console_log (LogFetchError error)) ;;
         ret None) ;;
  match returned with
  | Some b => ret b
  | None => ret false
  end.

(** Lines 48-87: a new socket replaces [this.websocket]; its four
    handlers are [onopen], [onmessage], [onclose], [onerror] below. *)
Definition connectWebSocket : M unit :=
  modify (fun w => set_sockets (S (sockets w)) w) ;;
  modify (fun w => set_websocket (Some (sockets w)) w).

(** Lines 51-62. *)
Definition onopen : M unit :=
  console_log LogConnected ;;
  modify (set_reconnectAttempts 0) ;;
  id <- gets userId ;;
  websocket_send (Subscribe id).

(** What [JSON.parse(event.data)] makes of a frame: [op] is the number
    under [op] when there is one, [t] the string under [t], [d] the
    snapshot under [d].  A JSON number, string or array has none of them. *)
Record message : Type := {
  op : option Z;
  t : option string;
  d : option PresenceSnapshot
}.

Inductive json : Type :=
| Null
| Value (data : message).

(** [event.data]: text that is JSON, or is not. *)
Inductive frame_text : Type :=
| Malformed
| Json (v : json).

Definition JSON_parse (s : frame_text) : M json :=
  match s with
  | Malformed => throw SyntaxError
  | Json v => ret v
  end.

Definition strict_eq (x : option string) (s : string) : bool :=
  match x with
  | Some x' => (x' =? s)%string
  | None => false
  end.

(** Lines 64-74. *)
Definition onmessage (event_data : frame_text) : M unit :=
  data <- JSON_parse event_data ;;
  console_log LogMessage ;;
  match data with
  | Null => throw TypeError                      (* data.op *)
  | Value data =>
      if match op data with Some n => n =? 1 | None => false end
      then websocket_send HeartbeatAck
      else if strict_eq (t data) "INIT_STATE" || strict_eq (t data) "PRESENCE_UPDATE"
      then updateStatus (d data)
      else ret tt
  end.

(** Lines 89-101. *)
Definition attemptReconnect (now : env) : M unit :=
  n <- gets reconnectAttempts ;;
  if n <? maxReconnectAttempts
  then
    modify (fun w => set_reconnectAttempts (reconnectAttempts w + 1) w) ;;
    n' <- gets reconnectAttempts ;;
    console_log (LogReconnectAttempt n') ;;
    _ <- setTimeout Reconnect (3000 * n') ;;
    ret tt
  else
    console_log LogMaxAttempts ;;
    useFallback now.

Record CloseEvent : Type := { code : Z; reason : string; wasClean : bool }.

(** Lines 76-81. *)
Definition onclose (now : env) (event : CloseEvent) : M unit :=
  console_log (LogClosed (code event) (reason event)) ;;
  if negb (wasClean event) then attemptReconnect now else ret tt.

(** Lines 83-86. *)
Definition onerror : M unit :=
  console_log LogSocketError.

(** Lines 11-19. *)
Definition init (r : fetch_result) (now : env) : M unit :=
  try_catch
    (_ <- fetchInitialStatus r ;;
     connectWebSocket)
    (fun _ =>
       console_log LogUnavailable ;;
       useFallback now).

(** Lines 3-9, up to the call of [init]. *)
Definition constructor (id : string) (page : DOM) : world :=
  {| userId := id; websocket := None; reconnectAttempts := 0;
     document := page; console := []; timeouts := []; cleared := [];
     intervals := []; sockets := 0%nat; sent := [] |}.

(** ** The event loop *)

Inductive event : Type :=
| open
| message_event (event_data : frame_text)
| close (e : CloseEvent)
| error
| timer_fires (cb : callback).

Definition run_callback (now : env) (cb : callback) : M unit :=
  match cb with
  | AbortFetch => ret tt               (* the fetch then ends as Rejected AbortError *)
  | Reconnect => connectWebSocket
  | UpdateFallbackStatus => updateFallbackStatus now
  end.

Definition dispatch (now : env) (e : event) : M unit :=
  match e with
  | open => onopen
  | message_event event_data => onmessage event_data
  | close ev => onclose now ev
  | error => onerror
  | timer_fires cb => run_callback now cb
  end.

(** One turn of the event loop: an exception that leaves a handler is
    reported by the browser and the page goes on from the state reached. *)
Definition step (w : world) (turn : env * event) : world :=
  exec (dispatch (fst turn) (snd turn)) w.

Definition run (turns : list (env * event)) (w : world) : world :=
  fold_left step turns w.

(** ** Observations used in the statements *)

Definition is_fallback_log (l : log_entry) : bool :=
  match l with
  | LogFallbackMode => true
  | _ => false
  end.

(** [useFallback] has been entered: its first statement logs line 193. *)
Definition in_fallback (w : world) : bool :=
  existsb is_fallback_log (console w).

Definition is_reconnect (tm : timer) : bool :=
  match handler tm with
  | Reconnect => true
  | _ => false
  end.

(** The delays of the reconnections scheduled so far, oldest first. *)
Definition reconnect_delays (w : world) : list Z :=
  map delay (filter is_reconnect (timeouts w)).

Definition is_unclean_close (turn : env * event) : bool :=
  match snd turn with
  | close e => negb (wasClean e)
  | _ => false
  end.

(** How many of the turns are unclean closes. *)
Definition unclean_closes (turns : list (env * event)) : nat :=
  List.length (filter is_unclean_close turns).

Definition is_open (turn : env * event) : bool :=
  match snd turn with
  | open => true
  | _ => false
  end.

(** [style.display] of the activity container, when the page has one. *)
Definition activity_display (page : DOM) : option string :=
  option_map display (discord_activity page).

Definition activity_html (page : DOM) : option activity_info :=
  match discord_activity page with
  | Some el => innerHTML el
  | None => None
  end.

(** The activity line shows [html]. *)
Definition shows (page : DOM) (html : activity_info) : Prop :=
  activity_html page = Some html /\ activity_display page = Some "block".

Definition hidden (page : DOM) : Prop :=
  activity_display page = Some "none".

(** The status the closure of lines 195-208 draws. *)
Definition fallback_status (now : env) : string :=
  if (9 <=? getHours now) && (getHours now <=? 23)
  then (if gtQ (Math_random now) (4 # 10) then "online" else "idle")
  else (if gtQ (Math_random now) (8 # 10) then "dnd" else "offline").

(** The snapshot it hands to the renderer (line 207). *)
Definition synthetic (status : string) : PresenceSnapshot :=
  {| discord_status := status; activities := Some [] |}.

Definition fallback_interval : timer :=
  {| handler := UpdateFallbackStatus; delay := 60000 |}.

(** [updateActivity] finds or can create its container. *)
Definition has_activity_container (page : DOM) : bool :=
  match discord_activity page with
  | Some _ => true
  | None => profile_info page
  end.

(** [updateStatus] gets past its guard. *)
Definition has_status_elements (page : DOM) : bool :=
  match status_dot page, status_text page with
  | Some _, Some _ => true
  | _, _ => false
  end.

(** The renderer cannot throw on this page: it either stops at its guard
    or has a container to write the activity into. *)
Definition renderer_safe (page : DOM) : bool :=
  negb (has_status_elements page) || has_activity_container page.

(** [a] is the element [activities.find(p)] returns. *)
Definition first_such (p : activity -> bool) (l : list activity) (a : activity) : Prop :=
  exists before after,
    l = before ++ a :: after /\ forallb (fun x => negb (p x)) before = true /\ p a = true.

Definition none_such (p : activity -> bool) (l : list activity) : Prop :=
  forall a, In a l -> p a = false.

(** The precedence of section 4.2, with the condition the code puts on
    the custom status: playing, then music, then a custom status that has
    a state; otherwise nothing. *)
Inductive selects (l : list activity) : option activity_info -> Prop :=
| select_playing g :
    first_such is_game l g ->
    selects l (Some (playing_html g))
| select_listening s :
    none_such is_game l ->
    first_such is_spotify l s ->
    selects l (Some (listening_html s))
| select_status c :
    none_such is_game l ->
    none_such is_spotify l ->
    first_such is_custom l c ->
    truthy (state c) = true ->
    selects l (Some (status_html c))
| select_stateless c :
    none_such is_game l ->
    none_such is_spotify l ->
    first_such is_custom l c ->
    truthy (state c) = false ->
    selects l None
| select_nothing :
    none_such is_game l ->
    none_such is_spotify l ->
    none_such is_custom l ->
    selects l None.

(** The page [selects] describes. *)
Definition renders (page : DOM) (v : option activity_info) : Prop :=
  match v with
  | Some html => shows page html
  | None => hidden page
  end.

(** A page with all four elements, and pages that lack some. *)
Definition full_page : DOM :=
  {| status_dot := Some {| background := JStr "#333"; boxShadow := JStr "none" |};
     status_text := Some {| textContent := JStr "Offline"; text_color := JStr "#333" |};
     discord_activity := Some {| innerHTML := None; display := "none" |};
     profile_info := true |}.

Definition page_without_activity : DOM :=
  set_discord_activity None full_page.

Definition page_without_containers : DOM :=
  {| status_dot := status_dot full_page; status_text := status_text full_page;
     discord_activity := None; profile_info := false |}.

Definition page_without_dot : DOM :=
  set_status_dot None full_page.

Definition noon : env := {| getHours := 12; Math_random := 1 # 2 |}.

Definition unclean : env * event :=
  (noon, close {| code := 1006; reason := EmptyString; wasClean := false |}).

(** A connection that fails: the socket errors, closes uncleanly, and the
    reconnection timer set by the close fires. *)
Definition failed_attempt : list (env * event) :=
  [ (noon, error); unclean; (noon, timer_fires Reconnect) ].

Definition game (n : string) : activity :=
  {| type := 0; name := n; details := JUndefined; state := JUndefined; emoji := None |}.

Definition spotify : activity :=
  {| type := 2; name := "Spotify"; details := JStr "Song"; state := JStr "Artist";
     emoji := None |}.

Definition custom (s : jsstr) : activity :=
  {| type := 4; name := "Custom Status"; details := JUndefined; state := s;
     emoji := Some {| emoji_name := "fire" |} |}.

(** ** Observations for the further properties *)

(** The timer set by [attemptReconnect] fires. *)
Definition is_reconnect_firing (turn : env * event) : bool :=
  match snd turn with
  | timer_fires Reconnect => true
  | _ => false
  end.

Definition reconnect_firings (turns : list (env * event)) : nat :=
  List.length (filter is_reconnect_firing turns).

(** The two frames the class ever builds, for the user it was given. *)
Definition own_frame (id : string) (f : frame) : Prop :=
  f = Subscribe id \/ f = HeartbeatAck.

(** A turn whose frame, if it brings one, is JSON other than [null] and,
    when it is a data message, carries its snapshot under [d]. *)
Definition well_formed (turn : env * event) : bool :=
  match snd turn with
  | message_event Malformed => false
  | message_event (Json Null) => false
  | message_event (Json (Value m)) =>
      if match op m with Some n => n =? 1 | None => false end
      then true
      else if strict_eq (t m) "INIT_STATE" || strict_eq (t m) "PRESENCE_UPDATE"
           then match d m with Some _ => true | None => false end
           else true
  | _ => true
  end.

(** [querySelector] found the element. *)
Definition present {A} (o : option A) : bool :=
  match o with
  | Some _ => true
  | None => false
  end.

(** * ParticleSystem (lines 238-321)

    The particle list of the mouse trail.  The coordinates, velocities and
    lifetimes are JavaScript numbers; their arithmetic is left to the
    parameters of the section, so that what is proved holds whatever the
    floating-point operations return. *)

Module ParticleSystem.
Section Numbers.

Variable number : Type.
Variable plus : number -> number -> number.     (* a + b *)
Variable minus : number -> number -> number.    (* a - b *)
Variable le_zero : number -> bool.              (* a <= 0 *)
Variable below_03 : number -> bool.             (* a < 0.3 *)
Variable gravity : number.                      (* 0.05 *)

(** The object literal of lines 267-276. *)
Record particle : Type := {
  x : number; y : number; vx : number; vy : number;
  life : number; decay : number; size : number; color : string
}.

(** [this.maxParticles], line 244. *)
Definition maxParticles : nat := 50.

(** Lines 264-278; [fresh] is the literal built from the mouse position
    and seven calls of [Math.random()]. *)
Definition createParticle (fresh : particle) (particles : list particle)
  : list particle :=
  if (List.length particles <? maxParticles)%nat
  then particles ++ [fresh]
  else particles.

(** The body of the loop up to the test, lines 283-290; [r] is what
    [Math.random()] returns at line 288. *)
Definition advance (r : number) (p : particle) : particle :=
  {| x := plus (x p) (vx p);
     y := plus (y p) (vy p);
     vx := vx p;
     vy := if below_03 r then plus (vy p) gravity else vy p;
     life := minus (life p) (decay p);
     decay := decay p; size := size p; color := color p |}.

(** [particles.splice(i, 1)] *)
Definition splice (i : nat) (particles : list particle) : list particle :=
  firstn i particles ++ skipn (S i) particles.

(** The array after the in-place updates of [particles[i]]. *)
Definition store (i : nat) (p : particle) (particles : list particle)
  : list particle :=
  firstn i particles ++ p :: skipn (S i) particles.

(** The [for] loop of lines 282-295 with [remaining] iterations to go;
    [random k] is the result of the k-th call of [Math.random()] in this
    frame and [calls] the number of calls made so far. *)
Fixpoint loop (random : nat -> number) (calls : nat) (remaining : nat)
         (particles : list particle) : list particle :=
  match remaining with
  | O => particles
  | S i =>
      match nth_error particles i with
      | None => particles        (* i is always an index of the array *)
      | Some particle =>
          let particle' := advance (random calls) particle in
          loop random (S calls) i
               (if le_zero (life particle')
                then splice i particles
                else store i particle' particles)
      end
  end.

(** Lines 280-296. *)
Definition updateParticles (random : nat -> number) (particles : list particle)
  : list particle :=
  loop random 0 (List.length particles) particles.

(** What moves the list: a mouse move (line 259) and a frame (line 316;
    [drawParticles] only reads). *)
Inductive event : Type :=
| mousemove (fresh : particle)
| animate (random : nat -> number).

Definition step (particles : list particle) (e : event) : list particle :=
  match e with
  | mousemove fresh => createParticle fresh particles
  | animate random => updateParticles random particles
  end.

Definition run (events : list event) (particles : list particle)
  : list particle :=
  fold_left step events particles.

(** One pass over the particles in the order the loop visits them (last
    first): the k-th visited is advanced with the k-th random number and
    dropped when its life is used up. *)
Fixpoint sweep (random : nat -> number) (calls : nat) (visited : list particle)
  : list particle :=
  match visited with
  | [] => []
  | p :: rest =>
      let p' := advance (random calls) p in
      (if le_zero (life p') then [] else [p'])
        ++ sweep random (S calls) rest
  end.

End Numbers.
End ParticleSystem.

(** * SoundManager.toggleMusic and the play button (lines 386-412, 600-614) *)

Module SoundManager.

(** What [music.play()] does when it is called: it throws, it returns
    [undefined], or it returns a promise that settles in a later turn. *)
Inductive play_result : Type :=
| PlayThrows
| NoPromise
| Promise.

(** The calls made on the audio element. *)
Inductive call : Type :=
| play_call
| pause_call.

(** The two strings [toggleMusic] returns: the play triangle and the
    pause bars. *)
Inductive icon : Type :=
| play_icon
| pause_icon.

Record state : Type := {
  isPlaying : bool;              (* this.isPlaying *)
  music : bool;                  (* this.sounds.music is an element *)
  calls : list call;             (* oldest first *)
  pending : nat;                 (* promises of play() not yet settled *)
  logged : nat;                  (* console.log lines *)
  textContent : option icon;     (* playButton.textContent, once assigned *)
  aria_pressed : option bool     (* the attribute, once set *)
}.

(** Lines 328-337: [isPlaying] starts false. *)
Definition constructor (has_music : bool) : state :=
  {| isPlaying := false; music := has_music; calls := []; pending := 0%nat;
     logged := 0%nat; textContent := None; aria_pressed := None |}.

(** Lines 386-412. *)
Definition toggleMusic (r : play_result) (s : state) : icon * state :=
  if negb (music s)
  then (play_icon, s)
  else if isPlaying s
  then (play_icon,
        {| isPlaying := false; music := music s;
           calls := calls s ++ [pause_call]; pending := pending s;
           logged := logged s; textContent := textContent s;
           aria_pressed := aria_pressed s |})
  else
    match r with
    | PlayThrows =>
        (play_icon,
         {| isPlaying := isPlaying s; music := music s;
            calls := calls s ++ [play_call]; pending := pending s;
            logged := S (logged s); textContent := textContent s;
            aria_pressed := aria_pressed s |})
    | NoPromise =>
        (pause_icon,
         {| isPlaying := isPlaying s; music := music s;
            calls := calls s ++ [play_call]; pending := pending s;
            logged := logged s; textContent := textContent s;
            aria_pressed := aria_pressed s |})
    | Promise =>
        (pause_icon,
         {| isPlaying := isPlaying s; music := music s;
            calls := calls s ++ [play_call]; pending := S (pending s);
            logged := logged s; textContent := textContent s;
            aria_pressed := aria_pressed s |})
    end.

(** The click listener of lines 605-612. *)
Definition click (r : play_result) (s : state) : state :=
  let (newIcon, s') := toggleMusic r s in
  let isPlaying' := match newIcon with pause_icon => true | play_icon => false end in
  {| isPlaying := isPlaying s'; music := music s'; calls := calls s';
     pending := pending s'; logged := logged s';
     textContent := Some newIcon; aria_pressed := Some isPlaying' |}.

(** A promise of [play()] settles: the [then] callback of lines 398-400 or
    the [catch] callback of lines 400-404.  Nothing settles when nothing
    is pending. *)
Definition settle (resolved : bool) (s : state) : state :=
  match pending s with
  | O => s
  | S n =>
      {| isPlaying := resolved; music := music s; calls := calls s;
         pending := n; logged := if resolved then logged s else S (logged s);
         textContent := textContent s; aria_pressed := aria_pressed s |}
  end.

Inductive event : Type :=
| clicked (r : play_result)
| settled (resolved : bool).

Definition step (s : state) (e : event) : state :=
  match e with
  | clicked r => click r s
  | settled resolved => settle resolved s
  end.

Definition run (events : list event) (s : state) : state :=
  fold_left step events s.

Definition is_pause (c : call) : bool :=
  match c with
  | pause_call => true
  | play_call => false
  end.

Definition is_resolution (e : event) : bool :=
  match e with
  | settled true => true
  | _ => false
  end.

End SoundManager.

(** * Proofs *)

Ltac js :=
  cbv [exec outcome bind ret throw try_catch gets modify console_log
       setTimeout clearTimeout setInterval websocket_send querySelector
       assign_statusDot assign_statusText assign_activityElement show hide
       read or_else
       set_websocket set_reconnectAttempts set_document set_console
       set_timeouts set_cleared set_intervals set_sockets set_sent
       set_status_dot set_status_text set_discord_activity];
  simpl.

Ltac open_world w :=
  let page := fresh "page" in
  destruct w as [? ? ? page ? ? ? ? ? ?];
  destruct page as [? ? ? ?];
  simpl in *.

(** ** [find] and its declarative reading *)

Lemma find_first_such (p : activity -> bool) l a :
  find p l = Some a <-> first_such p l a.
Proof.
  split.
  - induction l as [|x l IH]; simpl; [discriminate|].
    destruct (p x) eqn:Hx.
    + intros [= <-]. exists [], l. auto.
    + intros H. destruct (IH H) as (b & c & -> & Hb & Ha).
      exists (x :: b), c. simpl. rewrite Hx. auto.
  - intros (b & c & -> & Hb & Ha).
    induction b as [|x b IH]; simpl in *.
    + now rewrite Ha.
    + apply andb_prop in Hb as [Hx Hb].
      apply negb_true_iff in Hx. rewrite Hx. auto.
Qed.

Lemma find_none_such (p : activity -> bool) l :
  find p l = None <-> none_such p l.
Proof.
  split.
  - intros H a Ha. exact (find_none p l H a Ha).
  - intros H. destruct (find p l) as [a|] eqn:E; [|reflexivity].
    apply find_some in E as [Hin Hp]. rewrite (H a Hin) in Hp. discriminate.
Qed.

Lemma first_such_functional p l a b :
  first_such p l a -> first_such p l b -> a = b.
Proof.
  intros Ha Hb. apply find_first_such in Ha, Hb. congruence.
Qed.

Lemma first_such_not_none p l a : first_such p l a -> ~ none_such p l.
Proof.
  intros Ha Hn. apply find_first_such in Ha. apply find_none_such in Hn.
  congruence.
Qed.

(** [selects] picks one thing: the precedence is a function of the list. *)
Lemma selects_functional l v1 v2 : selects l v1 -> selects l v2 -> v1 = v2.
Proof.
  intros H1 H2.
  destruct H1; destruct H2;
    repeat match goal with
      | Ha : first_such ?p l ?a, Hb : first_such ?p l ?b |- _ =>
          assert (a = b) by (exact (first_such_functional p l a b Ha Hb));
          subst; clear Hb
      | Ha : first_such ?p l _, Hn : none_such ?p l |- _ =>
          exfalso; exact (first_such_not_none p l _ Ha Hn)
      end;
    try reflexivity; try congruence.
Qed.

(** ** The renderer: frames and locality *)

(** [updateActivity] touches the activity container and nothing else. *)
Lemma updateActivity_frame acts status w :
  exists el,
    exec (updateActivity acts status) w
      = set_document (set_discord_activity el (document w)) w.
Proof.
  open_world w. unfold updateActivity.
  destruct (find is_game acts), (find is_spotify acts), (find is_custom acts);
    try destruct (truthy (state _));
    destruct (negb (status =? "offline")%string);
    match goal with
    | |- context [ {| discord_activity := ?o |} ] => destruct o
    end;
    try match goal with
    | |- context [ {| profile_info := ?b |} ] => destruct b
    end;
    js; eexists; reflexivity.
Qed.

(** Where the container is there or can be created, [updateActivity]
    returns and leaves on the page what the precedence selects. *)
Lemma updateActivity_renders w acts status :
  status <> "offline" ->
  has_activity_container (document w) = true ->
  outcome (updateActivity acts status) w = Normal tt /\
  exists v, selects acts v /\
            renders (document (exec (updateActivity acts status) w)) v.
Proof.
  intros Hs Hc.
  apply String.eqb_neq in Hs.
  unfold has_activity_container in Hc.
  open_world w.
  unfold updateActivity. rewrite Hs. simpl negb.
  destruct (find is_game acts) as [g|] eqn:Eg;
  [| destruct (find is_spotify acts) as [s|] eqn:Es;
     [| destruct (find is_custom acts) as [c|] eqn:Ec;
        [ destruct (truthy (state c)) eqn:Et |] ] ];
  repeat match goal with
    | H : find _ _ = Some _ |- _ => apply find_first_such in H
    | H : find _ _ = None |- _ => apply find_none_such in H
    end;
  match goal with
  | H : match ?o with Some _ => true | None => _ end = true |- _ =>
      destruct o as [el|]; [| subst ]
  end;
  js; (split; [reflexivity|]).
  1-2: exists (Some (playing_html g)); split;
    [ now apply select_playing | split; reflexivity ].
  1-2: exists (Some (listening_html s)); split;
    [ now apply select_listening | split; reflexivity ].
  1-2: exists (Some (status_html c)); split;
    [ now apply select_status | split; reflexivity ].
  1-2: exists None; split;
    [ now apply (select_stateless acts c) | reflexivity ].
  1-2: exists None; split;
    [ now apply select_nothing | reflexivity ].
Qed.

(** With status [offline] every branch of the chain fails. *)
Lemma updateActivity_offline w acts :
  has_activity_container (document w) = true ->
  outcome (updateActivity acts "offline") w = Normal tt /\
  hidden (document (exec (updateActivity acts "offline") w)).
Proof.
  intros Hc. unfold has_activity_container in Hc.
  open_world w. unfold updateActivity. simpl negb.
  destruct (find is_game acts), (find is_spotify acts), (find is_custom acts);
    try rewrite andb_false_r;
    match goal with
    | H : match ?o with Some _ => true | None => _ end = true |- _ =>
        destruct o as [el|]; [| subst ]
    end;
    js; split; reflexivity.
Qed.

(** The lookup never ends on [undefined]. *)
Lemma config_defined status :
  or_else (get statusConfig status) (get statusConfig "offline") <> Undefined.
Proof.
  destruct (get statusConfig status) eqn:E; simpl; try discriminate.
Qed.

(** Past its guard, [updateStatus] paints the two status elements with
    the entry it looked up and hands over to [updateActivity]. *)
Lemma updateStatus_then_updateActivity w u :
  has_status_elements (document w) = true ->
  exists w1,
    updateStatus (Some u) w
      = updateActivity (or_empty (activities u)) (discord_status u) w1 /\
    discord_activity (document w1) = discord_activity (document w) /\
    profile_info (document w1) = profile_info (document w) /\
    (forall c,
      or_else (get statusConfig (discord_status u)) (get statusConfig "offline")
        = Own c ->
      status_dot (document w1)
        = Some {| background := JStr (color c); boxShadow := JStr (shadow c) |} /\
      status_text (document w1)
        = Some {| textContent := JStr (text c); text_color := JStr (color c) |}) /\
    exists page1,
      w1 = set_console
             (console w ++ [LogUpdateStatus (Some u);
                            LogDiscordStatus (discord_status u)
                                             (or_empty (activities u))])
             (set_document page1 w).
Proof.
  intros Hg. unfold has_status_elements in Hg.
  open_world w.
  destruct status_dot0 as [dot|]; [|discriminate].
  destruct status_text0 as [txt|]; [|discriminate].
  unfold updateStatus.
  pose proof (config_defined (discord_status u)) as Hd.
  remember (or_else (get statusConfig (discord_status u))
                    (get statusConfig "offline")) as cfg eqn:Ecfg.
  clear Ecfg.
  destruct cfg as [c| |]; [ | | congruence ]; js;
    eexists; (split; [reflexivity|]); simpl;
    (split; [reflexivity|]); (split; [reflexivity|]);
    (split; [ intros c' Hc'; inversion Hc'; subst; split; reflexivity |]);
    eexists; rewrite <- app_assoc; reflexivity.
Qed.

(** What is on the page once [updateStatus] has run past its guard with
    an entry of the table. *)
Lemma updateStatus_paints w u c :
  has_status_elements (document w) = true ->
  or_else (get statusConfig (discord_status u)) (get statusConfig "offline")
    = Own c ->
  let page' := document (exec (updateStatus (Some u)) w) in
  status_dot page'
    = Some {| background := JStr (color c); boxShadow := JStr (shadow c) |} /\
  status_text page'
    = Some {| textContent := JStr (text c); text_color := JStr (color c) |}.
Proof.
  intros Hg Hc page'. subst page'.
  destruct (updateStatus_then_updateActivity w u Hg) as (w1 & E & _ & _ & Hp & _).
  destruct (Hp c Hc) as [Hdot Htxt].
  unfold exec. rewrite E.
  destruct (updateActivity_frame (or_empty (activities u)) (discord_status u) w1)
    as [el Hel].
  unfold exec in Hel. rewrite Hel.
  destruct w1 as [? ? ? page1 ? ? ? ? ? ?]; simpl in *. auto.
Qed.

(** [updateStatus] writes to the page and the console only, and never
    logs the line that marks the fallback. *)
Lemma updateStatus_frame u w :
  exists page logs,
    exec (updateStatus u) w
      = set_console (console w ++ logs) (set_document page w) /\
    existsb is_fallback_log logs = false.
Proof.
  destruct (has_status_elements (document w)) eqn:Hg.
  - destruct u as [u|].
    + destruct (updateStatus_then_updateActivity w u Hg)
        as (w1 & E & _ & _ & _ & page1 & ->).
      unfold exec at 1. rewrite E.
      match type of E with
      | _ = updateActivity ?a ?s ?w1 =>
          destruct (updateActivity_frame a s w1) as [el Hel]
      end.
      unfold exec in Hel. rewrite Hel.
      eexists; eexists; split; [ destruct w; reflexivity | reflexivity ].
    + unfold has_status_elements in Hg. open_world w.
      destruct status_dot0, status_text0; try discriminate.
      unfold updateStatus. js.
      eexists; eexists; split; reflexivity.
  - unfold has_status_elements in Hg. open_world w.
    unfold updateStatus.
    exists {| status_dot := status_dot0; status_text := status_text0;
              discord_activity := discord_activity0;
              profile_info := profile_info0 |},
           [LogUpdateStatus u; LogElementsNotFound].
    destruct status_dot0, status_text0; try discriminate; js;
      rewrite <- app_assoc; split; reflexivity.
Qed.


(** The renderer reads and writes the page only: what it leaves on the
    page, and whether it throws, depend on nothing else. *)
Lemma updateActivity_local acts status w1 w2 :
  document w1 = document w2 ->
  document (exec (updateActivity acts status) w1)
    = document (exec (updateActivity acts status) w2) /\
  outcome (updateActivity acts status) w1
    = outcome (updateActivity acts status) w2.
Proof.
  intros E. destruct w1, w2; simpl in E; subst.
  unfold updateActivity.
  destruct (find is_game acts), (find is_spotify acts), (find is_custom acts);
    try destruct (truthy (state _));
    destruct (negb (status =? "offline")%string);
    match goal with
    | |- context [ {| document := ?p |} ] => destruct p as [? ? o b]; destruct o, b
    end;
    js; split; reflexivity.
Qed.

Lemma updateStatus_local u w1 w2 :
  document w1 = document w2 ->
  document (exec (updateStatus u) w1) = document (exec (updateStatus u) w2) /\
  outcome (updateStatus u) w1 = outcome (updateStatus u) w2.
Proof.
  intros E. destruct w1, w2; simpl in E; subst.
  destruct document1 as [dot txt el prof].
  unfold updateStatus.
  destruct u as [u|]; [| destruct dot, txt; js; split; reflexivity ].
  pose proof (config_defined (discord_status u)) as Hd.
  remember (or_else (get statusConfig (discord_status u))
                    (get statusConfig "offline")) as cfg eqn:Ecfg.
  clear Ecfg.
  destruct cfg as [c| |]; [ | | congruence ];
    destruct dot, txt; js; try (split; reflexivity);
    apply updateActivity_local; reflexivity.
Qed.

(** The renderer returns whenever the page is [renderer_safe]. *)
Lemma updateStatus_returns w u :
  renderer_safe (document w) = true ->
  outcome (updateStatus (Some u)) w = Normal tt.
Proof.
  intros Hsafe. unfold renderer_safe in Hsafe.
  destruct (has_status_elements (document w)) eqn:Hg.
  - simpl in Hsafe.
    destruct (updateStatus_then_updateActivity w u Hg) as (w1 & E & Ha & Hp & _).
    unfold outcome. rewrite E.
    assert (Hc : has_activity_container (document w1) = true).
    { unfold has_activity_container in *. now rewrite Ha, Hp. }
    destruct (String.eqb_spec (discord_status u) "offline") as [->|Hs].
    + exact (proj1 (updateActivity_offline w1 _ Hc)).
    + exact (proj1 (updateActivity_renders w1 _ _ Hs Hc)).
  - clear Hsafe. unfold has_status_elements in Hg. open_world w.
    unfold updateStatus.
    destruct status_dot0, status_text0; try discriminate; js; reflexivity.
Qed.

(** ** The renderer: what ends up on the page *)

(** C3, as amended.  For every snapshot whose status is not offline, on a
    page that has the status elements and has (or can be given) the
    activity container, the renderer returns and leaves exactly what the
    precedence selects: the first playing activity (kind 0, not named
    Spotify or Custom Status); failing that the first activity named
    Spotify; failing that the first custom status (kind 4) provided its
    state is a non-empty string; otherwise the activity line is hidden. *)
Theorem activity_precedence w u :
  discord_status u <> "offline" ->
  has_status_elements (document w) = true ->
  has_activity_container (document w) = true ->
  outcome (updateStatus (Some u)) w = Normal tt /\
  exists v,
    selects (or_empty (activities u)) v /\
    renders (document (exec (updateStatus (Some u)) w)) v.
Proof.
  intros Hs Hg Hc.
  destruct (updateStatus_then_updateActivity w u Hg) as (w1 & E & Ha & Hp & _).
  assert (Hc1 : has_activity_container (document w1) = true).
  { unfold has_activity_container in *. now rewrite Ha, Hp. }
  unfold outcome, exec. rewrite E.
  exact (updateActivity_renders w1 _ _ Hs Hc1).
Qed.

Lemma activity_precedence_witness :
  let u := {| discord_status := "online";
              activities := Some [custom (JStr "hi"); spotify; game "Chess"] |} in
  let w := constructor "1413802676776337469" page_without_activity in
  discord_status u <> "offline" /\
  has_status_elements (document w) = true /\
  has_activity_container (document w) = true /\
  outcome (updateStatus (Some u)) w = Normal tt /\
  exists v,
    selects (or_empty (activities u)) v /\
    renders (document (exec (updateStatus (Some u)) w)) v.
Proof.
  intros u w.
  split; [discriminate|].
  split; [reflexivity|].
  split; [reflexivity|].
  apply (activity_precedence w u); [discriminate | reflexivity | reflexivity].
Defined.

(** C3 as stated fails: a snapshot that is online and holds one custom
    status and nothing else, the custom status carrying an emoji and no
    state, leaves the activity line hidden, not showing the custom status. *)
Lemma stateless_custom_status_is_hidden :
  let u := {| discord_status := "online";
              activities := Some [custom JUndefined] |} in
  let w := constructor "1413802676776337469" full_page in
  let page' := document (exec (updateStatus (Some u)) w) in
  discord_status u <> "offline" /\
  In (custom JUndefined) (or_empty (activities u)) /\
  type (custom JUndefined) = 4 /\
  outcome (updateStatus (Some u)) w = Normal tt /\
  activity_display page' = Some "none" /\
  ~ shows page' (status_html (custom JUndefined)).
Proof.
  intros u w page'.
  split; [discriminate|].
  split; [left; reflexivity|].
  split; [reflexivity|].
  split; [reflexivity|].
  split; [reflexivity|].
  intros [H _]. vm_compute in H. discriminate.
Qed.

(** C9.  For every snapshot whose status is offline, whatever its
    activities, on a page that has the status elements and has (or can be
    given) the activity container, the renderer returns and the activity
    container ends with display none. *)
Theorem offline_hides_activity w u :
  discord_status u = "offline" ->
  has_status_elements (document w) = true ->
  has_activity_container (document w) = true ->
  outcome (updateStatus (Some u)) w = Normal tt /\
  hidden (document (exec (updateStatus (Some u)) w)).
Proof.
  intros Hs Hg Hc.
  destruct (updateStatus_then_updateActivity w u Hg) as (w1 & E & Ha & Hp & _).
  assert (Hc1 : has_activity_container (document w1) = true).
  { unfold has_activity_container in *. now rewrite Ha, Hp. }
  unfold outcome, exec. rewrite E, Hs.
  exact (updateActivity_offline w1 _ Hc1).
Qed.

Lemma offline_hides_activity_witness :
  let u := {| discord_status := "offline";
              activities := Some [game "Chess"; spotify; custom (JStr "hi")] |} in
  let w := constructor "1413802676776337469" full_page in
  discord_status u = "offline" /\
  has_status_elements (document w) = true /\
  has_activity_container (document w) = true /\
  outcome (updateStatus (Some u)) w = Normal tt /\
  hidden (document (exec (updateStatus (Some u)) w)).
Proof.
  intros u w.
  split; [reflexivity|].
  split; [reflexivity|].
  split; [reflexivity|].
  apply (offline_hides_activity w u); reflexivity.
Defined.

(** C10.  For every snapshot whose status is not offline, with no
    qualifying playing activity and no activity named Spotify, and whose
    first custom status (kind 4) is [c]: the custom status is shown exactly
    when [c.state] is a non-empty string; when the state is absent, null or
    empty, the activity line is hidden. *)
Theorem custom_status_needs_state w u c :
  discord_status u <> "offline" ->
  has_status_elements (document w) = true ->
  has_activity_container (document w) = true ->
  none_such is_game (or_empty (activities u)) ->
  none_such is_spotify (or_empty (activities u)) ->
  first_such is_custom (or_empty (activities u)) c ->
  let page' := document (exec (updateStatus (Some u)) w) in
  outcome (updateStatus (Some u)) w = Normal tt /\
  ((exists s, state c = JStr s /\ s <> EmptyString) /\ shows page' (status_html c)
   \/
   (forall s, state c = JStr s -> s = EmptyString) /\ hidden page').
Proof.
  intros Hs Hg Hc Hgame Hspot Hcust page'. subst page'.
  destruct (updateStatus_then_updateActivity w u Hg) as (w1 & E & Ha & Hp & _).
  assert (Hc1 : has_activity_container (document w1) = true).
  { unfold has_activity_container in *. now rewrite Ha, Hp. }
  unfold outcome, exec. rewrite E.
  destruct (updateActivity_renders w1 (or_empty (activities u)) _ Hs Hc1)
    as (Hn & v & Hsel & Hr).
  split; [exact Hn|].
  destruct (truthy (state c)) eqn:Et.
  - left.
    assert (Hv : v = Some (status_html c)).
    { apply (selects_functional _ _ _ Hsel). now apply select_status. }
    subst v. split; [| exact Hr].
    destruct (state c) as [| |s]; try discriminate.
    exists s. split; [reflexivity|].
    simpl in Et. apply negb_true_iff in Et. now apply String.eqb_neq.
  - right.
    assert (Hv : v = None).
    { apply (selects_functional _ _ _ Hsel).
      now apply (select_stateless _ c). }
    subst v. split; [| exact Hr].
    intros s Es. rewrite Es in Et. simpl in Et.
    apply negb_false_iff in Et. now apply String.eqb_eq.
Qed.

Lemma custom_status_needs_state_witness :
  let c := custom (JStr "brb") in
  let u := {| discord_status := "idle"; activities := Some [c] |} in
  let w := constructor "1413802676776337469" full_page in
  let page' := document (exec (updateStatus (Some u)) w) in
  discord_status u <> "offline" /\
  has_status_elements (document w) = true /\
  has_activity_container (document w) = true /\
  none_such is_game (or_empty (activities u)) /\
  none_such is_spotify (or_empty (activities u)) /\
  first_such is_custom (or_empty (activities u)) c /\
  outcome (updateStatus (Some u)) w = Normal tt /\
  ((exists s, state c = JStr s /\ s <> EmptyString) /\ shows page' (status_html c)
   \/
   (forall s, state c = JStr s -> s = EmptyString) /\ hidden page').
Proof.
  intros c u w page'.
  assert (Hs : discord_status u <> "offline") by discriminate.
  assert (Hgame : none_such is_game (or_empty (activities u))).
  { apply find_none_such. reflexivity. }
  assert (Hspot : none_such is_spotify (or_empty (activities u))).
  { apply find_none_such. reflexivity. }
  assert (Hcust : first_such is_custom (or_empty (activities u)) c).
  { apply find_first_such. reflexivity. }
  split; [exact Hs|].
  split; [reflexivity|].
  split; [reflexivity|].
  split; [exact Hgame|].
  split; [exact Hspot|].
  split; [exact Hcust|].
  exact (custom_status_needs_state w u c Hs eq_refl eq_refl Hgame Hspot Hcust).
Defined.

(** C2, as amended.  For every argument, if the status dot or the status
    text is absent from the page, rendering is a silent no-op: the call
    returns normally, two lines are logged (104 and 110), and nothing else
    in the browser or the instance changes. *)
Theorem missing_status_element_is_noop w u :
  has_status_elements (document w) = false ->
  updateStatus u w
    = (Normal tt,
       set_console (console w ++ [LogUpdateStatus u; LogElementsNotFound]) w).
Proof.
  intros Hg. unfold has_status_elements in Hg. open_world w.
  unfold updateStatus.
  destruct status_dot0 as [dot|]; [destruct status_text0 as [txt|] |];
    try discriminate; js; rewrite <- app_assoc; reflexivity.
Qed.

Lemma missing_status_element_is_noop_witness :
  let u := Some {| discord_status := "dnd"; activities := Some [spotify] |} in
  let w := constructor "1413802676776337469" page_without_dot in
  has_status_elements (document w) = false /\
  updateStatus u w
    = (Normal tt,
       set_console (console w ++ [LogUpdateStatus u; LogElementsNotFound]) w).
Proof.
  intros u w.
  split; [reflexivity|].
  apply (missing_status_element_is_noop w u). reflexivity.
Defined.

(** C2 as stated fails: with the activity container absent (the other
    three elements present) rendering is not a no-op: the renderer creates
    the container, paints the status and writes the activity line. *)
Lemma absent_activity_container_is_created :
  let u := Some {| discord_status := "online"; activities := Some [game "Chess"] |} in
  let w := constructor "1413802676776337469" page_without_activity in
  let page' := document (exec (updateStatus u) w) in
  discord_activity (document w) = None /\
  outcome (updateStatus u) w = Normal tt /\
  page' <> document w /\
  status_dot page'
    = Some {| background := JStr "#555"; boxShadow := JStr "0 0 5px #555" |} /\
  discord_activity page'
    = Some {| innerHTML := Some (playing_html (game "Chess")); display := "block" |}.
Proof.
  intros u w page'.
  split; [reflexivity|].
  split; [reflexivity|].
  split; [| split; reflexivity].
  intros H.
  assert (E : discord_activity page' = discord_activity (document w))
    by (rewrite H; reflexivity).
  vm_compute in E. discriminate.
Qed.

(** With neither the activity container nor [.profile-info] on the page,
    line 143 throws after the status has been painted. *)
Lemma missing_containers_throw :
  let u := Some {| discord_status := "online"; activities := Some [] |} in
  let w := constructor "1413802676776337469" page_without_containers in
  outcome (updateStatus u) w = Throw TypeError /\
  status_dot (document (exec (updateStatus u) w))
    = Some {| background := JStr "#555"; boxShadow := JStr "0 0 5px #555" |}.
Proof. split; reflexivity. Qed.

(** ** The status table *)

(** The four recognized codes reach their own entry. *)
Lemma recognized_status :
  or_else (get statusConfig "online") (get statusConfig "offline")
    = Own {| color := "#555"; text := "Online"; shadow := "0 0 5px #555" |} /\
  or_else (get statusConfig "idle") (get statusConfig "offline")
    = Own {| color := "#666"; text := "Away"; shadow := "0 0 5px #666" |} /\
  or_else (get statusConfig "dnd") (get statusConfig "offline")
    = Own {| color := "#777"; text := "Busy"; shadow := "0 0 5px #777" |} /\
  or_else (get statusConfig "offline") (get statusConfig "offline")
    = Own {| color := "#333"; text := "Offline"; shadow := "0 0 5px #333" |}.
Proof. repeat split; reflexivity. Qed.

(** A code that is neither in the table nor the name of a member of
    [Object.prototype] reaches the [offline] entry. *)
Lemma unrecognized_status status :
  own_property statusConfig status = None ->
  existsb (String.eqb status) Object_prototype = false ->
  or_else (get statusConfig status) (get statusConfig "offline")
    = Own {| color := "#333"; text := "Offline"; shadow := "0 0 5px #333" |}.
Proof.
  intros Hown Hproto. unfold get at 1. rewrite Hown, Hproto. reflexivity.
Qed.

(** On the page: a recognized code paints exactly its entry of the table,
    and a code that is neither recognized nor inherited paints the
    [offline] entry. *)
Lemma recognized_status_is_painted w u c :
  has_status_elements (document w) = true ->
  In (discord_status u, c) statusConfig ->
  let page' := document (exec (updateStatus (Some u)) w) in
  status_dot page'
    = Some {| background := JStr (color c); boxShadow := JStr (shadow c) |} /\
  status_text page'
    = Some {| textContent := JStr (text c); text_color := JStr (color c) |}.
Proof.
  intros Hg Hin. apply updateStatus_paints; [assumption|].
  simpl in Hin.
  destruct Hin as [E | [E | [E | [E | []]]]];
    inversion E as [[Hs Hc]]; reflexivity.
Qed.

Lemma unrecognized_status_is_painted_offline w u :
  has_status_elements (document w) = true ->
  own_property statusConfig (discord_status u) = None ->
  existsb (String.eqb (discord_status u)) Object_prototype = false ->
  let page' := document (exec (updateStatus (Some u)) w) in
  status_dot page'
    = Some {| background := JStr "#333"; boxShadow := JStr "0 0 5px #333" |} /\
  status_text page'
    = Some {| textContent := JStr "Offline"; text_color := JStr "#333" |}.
Proof.
  intros Hg Hown Hproto.
  exact (updateStatus_paints w u _ Hg (unrecognized_status _ Hown Hproto)).
Qed.

(** C5, at the input where the code leaves it.  The code [constructor] is
    not one of the four recognized codes, yet [statusConfig[status]] is not
    [undefined] for it: it is the member inherited from [Object.prototype],
    so the [|| statusConfig.offline] default is not taken, and the renderer
    assigns [undefined] to the colour, the shadow and the label instead of
    the offline entry's [#333], [0 0 5px #333] and [Offline]. *)
Theorem inherited_status_is_not_offline :
  let u := {| discord_status := "constructor"; activities := Some [] |} in
  let w := constructor "1413802676776337469" full_page in
  let page' := document (exec (updateStatus (Some u)) w) in
  own_property statusConfig (discord_status u) = None /\
  or_else (get statusConfig (discord_status u)) (get statusConfig "offline")
    = Inherited /\
  status_dot page' = Some {| background := JUndefined; boxShadow := JUndefined |} /\
  status_text page' = Some {| textContent := JUndefined; text_color := JUndefined |}.
Proof. repeat split; reflexivity. Qed.

(** ** The fallback generator *)

Lemma updateFallbackStatus_unfold now :
  updateFallbackStatus now
    = (console_log (LogFallbackStatus (fallback_status now)) ;;
       updateStatus (Some (synthetic (fallback_status now)))).
Proof. reflexivity. Qed.

Lemma fallback_status_range now :
  In (fallback_status now) ["online"; "idle"; "dnd"; "offline"].
Proof.
  unfold fallback_status.
  destruct ((9 <=? getHours now) && (getHours now <=? 23));
    [ destruct (gtQ (Math_random now) (4 # 10))
    | destruct (gtQ (Math_random now) (8 # 10)) ]; simpl; auto.
Qed.

Lemma updateFallbackStatus_frame now w :
  exists page logs,
    exec (updateFallbackStatus now) w
      = set_console (console w ++ logs) (set_document page w) /\
    existsb is_fallback_log logs = false.
Proof.
  rewrite updateFallbackStatus_unfold.
  set (l := LogFallbackStatus (fallback_status now)).
  set (u := Some (synthetic (fallback_status now))).
  destruct (updateStatus_frame u (set_console (console w ++ [l]) w))
    as (page & logs & E & Hq).
  exists page, (l :: logs). split.
  - unfold exec, bind, console_log, modify in *.
    destruct (updateStatus u _) as [[[]|e] w'] eqn:Eu; simpl in *;
      subst w'; destruct w; js; rewrite <- app_assoc; reflexivity.
  - simpl. exact Hq.
Qed.

(** [useFallback] logs line 193 first; it registers the interval exactly
    when the first rendering returns. *)
Lemma useFallback_frame now w :
  exists page logs,
    exec (useFallback now) w
      = set_intervals
          (intervals w ++
             match outcome (useFallback now) w with
             | Normal _ => [fallback_interval]
             | Throw _ => []
             end)
          (set_console (console w ++ LogFallbackMode :: logs)
             (set_document page w)) /\
    existsb is_fallback_log logs = false.
Proof.
  destruct (updateFallbackStatus_frame now
              (set_console (console w ++ [LogFallbackMode]) w))
    as (page & logs & E & Hq).
  exists page, logs. split; [| exact Hq].
  unfold useFallback, exec, outcome, bind, console_log, modify, setInterval in *.
  destruct (updateFallbackStatus now _) as [[[]|e] w'] eqn:Eu; simpl in *;
    subst w'; destruct w; js; rewrite <- app_assoc; try rewrite app_nil_r;
    reflexivity.
Qed.

(** On a page where the renderer cannot throw, neither can [useFallback]. *)
Lemma useFallback_returns now w :
  renderer_safe (document w) = true ->
  outcome (useFallback now) w = Normal tt.
Proof.
  intros Hsafe.
  unfold useFallback. rewrite updateFallbackStatus_unfold.
  set (u := synthetic (fallback_status now)).
  pose proof (updateStatus_returns
    (set_console
       (console (set_console (console w ++ [LogFallbackMode]) w)
          ++ [LogFallbackStatus (fallback_status now)])
       (set_console (console w ++ [LogFallbackMode]) w)) u) as H.
  unfold outcome, bind, console_log, modify, setInterval in *.
  destruct (updateStatus (Some u) _) as [[[]|e] w'] eqn:Eu.
  - reflexivity.
  - simpl in H. destruct w; simpl in *. specialize (H Hsafe). discriminate.
Qed.

(** ** The connection manager *)

(** Below the ceiling [attemptReconnect] counts, logs and schedules. *)
Lemma attemptReconnect_below now w :
  reconnectAttempts w < maxReconnectAttempts ->
  attemptReconnect now w
    = (Normal tt,
       set_timeouts
         (timeouts w ++ [{| handler := Reconnect;
                            delay := 3000 * (reconnectAttempts w + 1) |}])
         (set_console
            (console w ++ [LogReconnectAttempt (reconnectAttempts w + 1)])
            (set_reconnectAttempts (reconnectAttempts w + 1) w))).
Proof.
  intros H. apply Z.ltb_lt in H.
  destruct w; simpl in *. unfold attemptReconnect. js. rewrite H. reflexivity.
Qed.

(** At the ceiling it logs line 98 and enters the fallback. *)
Lemma attemptReconnect_exhausted now w :
  maxReconnectAttempts <= reconnectAttempts w ->
  attemptReconnect now w
    = useFallback now (set_console (console w ++ [LogMaxAttempts]) w).
Proof.
  intros H. apply Z.ltb_ge in H.
  destruct w; simpl in *. unfold attemptReconnect.
  unfold bind at 1, gets at 1. simpl. rewrite H. reflexivity.
Qed.

Arguments Z.mul : simpl nomatch.
Arguments Z.add : simpl nomatch.

Ltac grows :=
  first [ reflexivity
        | symmetry; apply app_nil_r
        | rewrite <- !app_assoc; reflexivity ].

Ltac shape :=
  do 8 eexists; split; [ f_equal; grows | ].

Ltac quiet :=
  left; repeat split; simpl; try assumption; try reflexivity.

(** One turn of the event loop, field by field: the user id and the
    cleared timers stay; console, timeouts, intervals and sent frames only
    grow.  A turn is quiet (anything but an open or an unclean close), or
    an open that resets the counter, or an unclean close that schedules a
    reconnection, or an unclean close at the ceiling that enters the
    fallback. *)
Lemma step_shape w turn :
  exists ws ra page logs tos ivs sk sends,
    step w turn
      = {| userId := userId w; websocket := ws; reconnectAttempts := ra;
           document := page; console := console w ++ logs;
           timeouts := timeouts w ++ tos; cleared := cleared w;
           intervals := intervals w ++ ivs; sockets := sk;
           sent := sent w ++ sends |} /\
    ((is_open turn = false /\ is_unclean_close turn = false /\
      ra = reconnectAttempts w /\ tos = [] /\ ivs = [] /\
      existsb is_fallback_log logs = false)
     \/ (is_open turn = true /\
         ra = 0 /\ tos = [] /\ ivs = [] /\
         existsb is_fallback_log logs = false)
     \/ (is_unclean_close turn = true /\
         reconnectAttempts w < maxReconnectAttempts /\
         ra = reconnectAttempts w + 1 /\
         tos = [{| handler := Reconnect; delay := 3000 * ra |}] /\ ivs = [] /\
         existsb is_fallback_log logs = false)
     \/ (is_unclean_close turn = true /\
         maxReconnectAttempts <= reconnectAttempts w /\
         ra = reconnectAttempts w /\ tos = [] /\
         existsb is_fallback_log logs = true)).
Proof.
  destruct turn as [now [ | data | e | | cb ]]; unfold step; simpl fst; simpl snd;
    unfold dispatch.
  - (* open *)
    destruct w as [? ws ? ? ? ? ? ? ? ?]; unfold onopen; js.
    destruct ws; js; shape; right; left; repeat split.
  - (* message *)
    destruct data as [|[|m]]; unfold onmessage, JSON_parse.
    + destruct w; js. shape. quiet.
    + destruct w; js. shape. quiet.
    + cbv [exec bind ret console_log modify]; simpl.
      destruct (match op m with Some n => n =? 1 | None => false end).
      * destruct w as [? ws ? ? ? ? ? ? ? ?]; js.
        destruct ws; js; shape; quiet.
      * destruct (strict_eq (t m) "INIT_STATE" || strict_eq (t m) "PRESENCE_UPDATE").
        -- destruct (updateStatus_frame (d m)
                       (set_console (console w ++ [LogMessage]) w))
             as (page & logs & E & Hq).
           unfold exec in E. rewrite E.
           destruct w; js; shape; quiet.
        -- destruct w; js. shape. quiet.
  - (* close *)
    unfold onclose. destruct (wasClean e) eqn:Hclean; simpl negb; cbv iota.
    + destruct w; js. shape. left.
      unfold is_unclean_close; simpl; rewrite Hclean. repeat split.
    + set (w0 := set_console (console w ++ [LogClosed (code e) (reason e)]) w).
      assert (Ew0 : exec (console_log (LogClosed (code e) (reason e)) ;;
                          attemptReconnect now) w
                    = exec (attemptReconnect now) w0) by reflexivity.
      rewrite Ew0. clear Ew0.
      destruct (Z.lt_ge_cases (reconnectAttempts w0) maxReconnectAttempts) as [Hlt|Hge].
      * unfold exec. rewrite (attemptReconnect_below now w0 Hlt).
        subst w0. destruct w; js. simpl in Hlt. shape.
        right; right; left; unfold is_unclean_close; simpl; rewrite Hclean.
        repeat split. assumption.
      * unfold exec. rewrite (attemptReconnect_exhausted now w0 Hge).
        destruct (useFallback_frame now
                    (set_console (console w0 ++ [LogMaxAttempts]) w0))
          as (page & logs & E & _).
        unfold exec in E. rewrite E.
        subst w0. destruct w; js. simpl in Hge. shape.
        right; right; right; unfold is_unclean_close; simpl; rewrite Hclean.
        repeat split. assumption.
  - (* error *)
    destruct w; unfold onerror; js. shape. quiet.
  - (* timer *)
    destruct cb; unfold run_callback.
    + destruct w; js. shape. quiet.
    + destruct w; unfold connectWebSocket; js. shape. quiet.
    + destruct (updateFallbackStatus_frame now w) as (page & logs & E & Hq).
      rewrite E. destruct w; js. shape. quiet.
Qed.

(** An unclean close below the ceiling: two log lines, one more attempt,
    one scheduled reconnection. *)
Lemma unclean_close_below w turn :
  is_unclean_close turn = true ->
  reconnectAttempts w < maxReconnectAttempts ->
  exists c r,
    step w turn
      = set_timeouts
          (timeouts w ++ [{| handler := Reconnect;
                             delay := 3000 * (reconnectAttempts w + 1) |}])
          (set_console
             (console w ++ [LogClosed c r;
                            LogReconnectAttempt (reconnectAttempts w + 1)])
             (set_reconnectAttempts (reconnectAttempts w + 1) w)).
Proof.
  destruct turn as [now [ | | e | | ]]; try discriminate.
  unfold is_unclean_close; simpl. intros Hu Hlt.
  exists (code e), (reason e).
  set (w0 := set_console (console w ++ [LogClosed (code e) (reason e)]) w).
  assert (E0 : step w (now, close e) = exec (attemptReconnect now) w0).
  { unfold step, dispatch, onclose, exec, bind, console_log, modify; simpl.
    rewrite Hu. reflexivity. }
  rewrite E0. unfold exec. rewrite (attemptReconnect_below now w0 Hlt).
  subst w0. destruct w; js. rewrite <- app_assoc. reflexivity.
Qed.

(** An unclean close at the ceiling: no reconnection, the fallback. *)
Lemma unclean_close_exhausted w turn :
  is_unclean_close turn = true ->
  maxReconnectAttempts <= reconnectAttempts w ->
  exists c r page logs ivs,
    step w turn
      = set_intervals (intervals w ++ ivs)
          (set_console
             (console w ++ LogClosed c r :: LogMaxAttempts :: LogFallbackMode :: logs)
             (set_document page w)).
Proof.
  destruct turn as [now [ | | e | | ]]; try discriminate.
  unfold is_unclean_close; simpl. intros Hu Hge.
  exists (code e), (reason e).
  set (w0 := set_console (console w ++ [LogClosed (code e) (reason e)]) w).
  assert (E0 : step w (now, close e) = exec (attemptReconnect now) w0).
  { unfold step, dispatch, onclose, exec, bind, console_log, modify; simpl.
    rewrite Hu. reflexivity. }
  rewrite E0. unfold exec. rewrite (attemptReconnect_exhausted now w0 Hge).
  destruct (useFallback_frame now
              (set_console (console w0 ++ [LogMaxAttempts]) w0))
    as (page & logs & E & _).
  unfold exec in E. rewrite E.
  subst w0. destruct w; js. do 3 eexists.
  rewrite <- !app_assoc. reflexivity.
Qed.

Lemma reconnect_delays_app w tos :
  map delay (filter is_reconnect (timeouts w ++ tos))
    = reconnect_delays w ++ map delay (filter is_reconnect tos).
Proof. unfold reconnect_delays. now rewrite filter_app, map_app. Qed.

(** Without an [open], the scheduled reconnections and the attempt counter
    move together, and the counter stays at or below the ceiling. *)
Lemma step_keeps_slack w turn :
  is_open turn = false ->
  reconnectAttempts w <= maxReconnectAttempts ->
  reconnectAttempts (step w turn) <= maxReconnectAttempts /\
  Z.of_nat (List.length (reconnect_delays (step w turn)))
    - reconnectAttempts (step w turn)
  = Z.of_nat (List.length (reconnect_delays w)) - reconnectAttempts w.
Proof.
  intros Hopen Hle.
  destruct (step_shape w turn)
    as (ws & ra & page & logs & tos & ivs & sk & sends & E & H).
  rewrite E. unfold reconnect_delays at 1. simpl.
  rewrite reconnect_delays_app, length_app.
  destruct H as [(_ & _ & -> & -> & _) | [(Ho & _)
                | [(_ & Hlt & -> & -> & _) | (_ & _ & -> & -> & _)]]].
  - simpl. lia.
  - congruence.
  - simpl. unfold maxReconnectAttempts in *. lia.
  - simpl. lia.
Qed.

Lemma run_keeps_slack turns : forall w,
  forallb (fun turn => negb (is_open turn)) turns = true ->
  reconnectAttempts w <= maxReconnectAttempts ->
  reconnectAttempts (run turns w) <= maxReconnectAttempts /\
  Z.of_nat (List.length (reconnect_delays (run turns w)))
    - reconnectAttempts (run turns w)
  = Z.of_nat (List.length (reconnect_delays w)) - reconnectAttempts w.
Proof.
  induction turns as [|turn turns IH]; intros w Hall Hle; simpl.
  - split; [assumption | reflexivity].
  - simpl in Hall. apply andb_prop in Hall as [Hturn Hall].
    apply negb_true_iff in Hturn.
    destruct (step_keeps_slack w turn Hturn Hle) as [Hle' Hs].
    destruct (IH (step w turn) Hall Hle') as [Hle'' Hs'].
    split; [assumption | lia].
Qed.

(** The registered intervals are never taken away. *)
Lemma run_keeps_intervals turns : forall w,
  exists ivs, intervals (run turns w) = intervals w ++ ivs.
Proof.
  induction turns as [|turn turns IH]; intros w; simpl.
  - exists []. now rewrite app_nil_r.
  - destruct (step_shape w turn)
      as (ws & ra & page & logs & tos & ivs & sk & sends & E & _).
    destruct (IH (step w turn)) as [ivs' E'].
    exists (ivs ++ ivs'). rewrite E', E. simpl. now rewrite app_assoc.
Qed.

Lemma in_fallback_app w logs :
  existsb is_fallback_log (console w ++ logs)
    = in_fallback w || existsb is_fallback_log logs.
Proof. unfold in_fallback. apply existsb_app. Qed.

(** A run without an open whose unclean closes stay within the ceiling:
    each unclean close schedules the next reconnection, and nothing enters
    the fallback. *)
Lemma run_unclean_closes turns : forall w,
  forallb (fun turn => negb (is_open turn)) turns = true ->
  reconnectAttempts w + Z.of_nat (unclean_closes turns) <= maxReconnectAttempts ->
  reconnectAttempts (run turns w)
    = reconnectAttempts w + Z.of_nat (unclean_closes turns) /\
  reconnect_delays (run turns w)
    = reconnect_delays w
      ++ map (fun k => 3000 * (reconnectAttempts w + Z.of_nat k))
             (seq 1 (unclean_closes turns)) /\
  in_fallback (run turns w) = in_fallback w /\
  intervals (run turns w) = intervals w.
Proof.
  induction turns as [|turn turns IH]; intros w Hall Hle.
  - simpl. rewrite app_nil_r. repeat split; lia.
  - simpl in Hall. apply andb_prop in Hall as [Hturn Hall].
    apply negb_true_iff in Hturn.
    unfold unclean_closes in *. simpl filter in *.
    destruct (step_shape w turn)
      as (ws & ra & page & logs & tos & ivs & sk & sends & E & H).
    assert (Ha : reconnectAttempts (step w turn) = ra) by (rewrite E; reflexivity).
    assert (Hd : reconnect_delays (step w turn)
                 = reconnect_delays w ++ map delay (filter is_reconnect tos)).
    { rewrite E. unfold reconnect_delays at 1. simpl timeouts.
      apply reconnect_delays_app. }
    assert (Hf : in_fallback (step w turn)
                 = in_fallback w || existsb is_fallback_log logs).
    { rewrite E. unfold in_fallback at 1. simpl console.
      apply in_fallback_app. }
    assert (Hi : intervals (step w turn) = intervals w ++ ivs)
      by (rewrite E; reflexivity).
    destruct H as [(_ & Hu & -> & -> & -> & Hq) | [(Ho & _)
                  | [(Hu & Hlt & -> & -> & -> & Hq) | (Hu & Hge & _)]]].
    + rewrite Hu in *.
      destruct (IH (step w turn) Hall) as (Ha' & Hd' & Hf' & Hi'); [lia|].
      simpl run. rewrite Ha', Hd', Hf', Hi', Ha, Hd, Hf, Hi, Hq.
      simpl. rewrite !app_nil_r, orb_false_r. repeat split.
    + congruence.
    + rewrite Hu in *. simpl List.length in *.
      destruct (IH (step w turn) Hall) as (Ha' & Hd' & Hf' & Hi'); [lia|].
      simpl run. rewrite Ha', Hd', Hf', Hi', Ha, Hd, Hf, Hi, Hq.
      rewrite app_nil_r, orb_false_r.
      repeat split; try lia.
      rewrite <- app_assoc. f_equal. simpl. f_equal.
      rewrite <- (seq_shift _ 1), map_map. apply map_ext. intros k. f_equal. lia.
    + rewrite Hu in *. simpl List.length in *. lia.
Qed.

(** C1, as amended.  From a state whose attempt counter is 0 (just
    constructed, or just after an open), along any run of turns without an
    open (errors, timers and messages may come in between): once five
    unclean closes have happened, five reconnections are scheduled, after
    3000, 6000, 9000, 12000 and 15000 ms, and the fallback has not been
    entered; a sixth unclean close enters the fallback and schedules
    nothing; and the number of reconnections scheduled along such a run
    never exceeds the ceiling of 5. *)
Theorem fallback_on_sixth_unclean_close w five sixth turns :
  reconnectAttempts w = 0 ->
  forallb (fun turn => negb (is_open turn)) five = true ->
  unclean_closes five = 5%nat ->
  is_unclean_close sixth = true ->
  forallb (fun turn => negb (is_open turn)) turns = true ->
  let w5 := run five w in
  let w6 := step w5 sixth in
  reconnect_delays w5
    = reconnect_delays w ++ [3000; 6000; 9000; 12000; 15000] /\
  in_fallback w5 = in_fallback w /\
  in_fallback w6 = true /\
  reconnect_delays w6 = reconnect_delays w5 /\
  (List.length (reconnect_delays (run turns w))
     <= List.length (reconnect_delays w) + 5)%nat.
Proof.
  intros H0 Hfive Hlen Hsixth Hturns w5 w6.
  destruct (run_unclean_closes five w Hfive) as (Ha & Hd & Hf & _).
  { rewrite H0, Hlen. unfold maxReconnectAttempts. lia. }
  rewrite H0, Hlen in Ha, Hd. fold w5 in Ha, Hd, Hf.
  split; [exact Hd|]. split; [exact Hf|].
  destruct (unclean_close_exhausted w5 sixth Hsixth)
    as (c & r & page & logs & ivs & E).
  { rewrite Ha. unfold maxReconnectAttempts. simpl. lia. }
  fold w6 in E.
  split.
  { rewrite E. unfold in_fallback. simpl console.
    rewrite in_fallback_app. simpl. apply orb_true_r. }
  split.
  { rewrite E. reflexivity. }
  destruct (run_keeps_slack turns w Hturns) as [Hle Hs].
  { rewrite H0. unfold maxReconnectAttempts. lia. }
  unfold maxReconnectAttempts in Hle. lia.
Qed.

Lemma fallback_on_sixth_unclean_close_witness :
  let w := constructor "1413802676776337469" full_page in
  let five := List.concat (repeat failed_attempt 5) in
  let turns := five ++ failed_attempt ++ failed_attempt in
  let w5 := run five w in
  let w6 := step w5 unclean in
  reconnectAttempts w = 0 /\
  forallb (fun turn => negb (is_open turn)) five = true /\
  unclean_closes five = 5%nat /\
  is_unclean_close unclean = true /\
  forallb (fun turn => negb (is_open turn)) turns = true /\
  reconnect_delays w5
    = reconnect_delays w ++ [3000; 6000; 9000; 12000; 15000] /\
  in_fallback w5 = in_fallback w /\
  in_fallback w6 = true /\
  reconnect_delays w6 = reconnect_delays w5 /\
  (List.length (reconnect_delays (run turns w))
     <= List.length (reconnect_delays w) + 5)%nat.
Proof.
  intros w five turns w5 w6.
  split; [reflexivity|].
  split; [reflexivity|].
  split; [reflexivity|].
  split; [reflexivity|].
  split; [reflexivity|].
  exact (fallback_on_sixth_unclean_close w five unclean turns
           eq_refl eq_refl eq_refl eq_refl eq_refl).
Defined.

(** C1 as stated fails: after a failed initial fetch and exactly five
    consecutive unclean closes (each socket erroring, closing, and being
    replaced when its timer fires) the manager is not in the fallback; the
    fifth close has scheduled the fifth reconnection and no interval is
    registered.  The fallback starts when the sixth socket closes. *)
Lemma five_unclean_closes_still_reconnecting :
  let w := exec (init (Rejected TypeError) noon)
                (constructor "1413802676776337469" full_page) in
  let w5 := run (List.concat (repeat failed_attempt 5)) w in
  unclean_closes (List.concat (repeat failed_attempt 5)) = 5%nat /\
  in_fallback w5 = false /\
  reconnectAttempts w5 = 5 /\
  reconnect_delays w5 = [3000; 6000; 9000; 12000; 15000] /\
  intervals w5 = [] /\
  in_fallback (step (step w5 (noon, error)) unclean) = true.
Proof. repeat split; reflexivity. Qed.

(** C6.  For every attempt number N with 1 <= N <= 5, that is, for every
    state whose counter stands at N - 1, [attemptReconnect] schedules the
    reconnection after N * 3000 ms; and for every later attempt N' with
    N <= N' <= 5 the delay it schedules is at least as long. *)
Theorem reconnect_delay_is_linear now w N :
  1 <= N ->
  N <= maxReconnectAttempts ->
  reconnectAttempts w = N - 1 ->
  timeouts (exec (attemptReconnect now) w)
    = timeouts w ++ [{| handler := Reconnect; delay := N * 3000 |}] /\
  reconnectAttempts (exec (attemptReconnect now) w) = N /\
  forall w' N',
    N <= N' -> N' <= maxReconnectAttempts -> reconnectAttempts w' = N' - 1 ->
    exists d',
      timeouts (exec (attemptReconnect now) w')
        = timeouts w' ++ [{| handler := Reconnect; delay := d' |}] /\
      d' = N' * 3000 /\
      N * 3000 <= d'.
Proof.
  intros H1 H5 Ha.
  assert (Hrun : forall v K, 1 <= K -> K <= maxReconnectAttempts ->
            reconnectAttempts v = K - 1 ->
            timeouts (exec (attemptReconnect now) v)
              = timeouts v ++ [{| handler := Reconnect; delay := K * 3000 |}] /\
            reconnectAttempts (exec (attemptReconnect now) v) = K).
  { intros v K HK1 HK5 Hv.
    assert (Hlt : reconnectAttempts v < maxReconnectAttempts) by lia.
    unfold exec. rewrite (attemptReconnect_below now v Hlt). simpl.
    rewrite Hv. split; [| lia].
    do 3 f_equal. lia. }
  destruct (Hrun w N H1 H5 Ha) as [Ht Hn].
  split; [exact Ht|]. split; [exact Hn|].
  intros w' N' HN HN5 Ha'.
  exists (N' * 3000).
  split; [ apply (Hrun w' N'); lia | ]. split; [reflexivity | lia].
Qed.

Lemma reconnect_delay_is_linear_witness :
  let w := set_reconnectAttempts 2 (constructor "1413802676776337469" full_page) in
  1 <= 3 /\
  3 <= maxReconnectAttempts /\
  reconnectAttempts w = 3 - 1 /\
  timeouts (exec (attemptReconnect noon) w)
    = timeouts w ++ [{| handler := Reconnect; delay := 3 * 3000 |}] /\
  reconnectAttempts (exec (attemptReconnect noon) w) = 3 /\
  forall w' N',
    3 <= N' -> N' <= maxReconnectAttempts -> reconnectAttempts w' = N' - 1 ->
    exists d',
      timeouts (exec (attemptReconnect noon) w')
        = timeouts w' ++ [{| handler := Reconnect; delay := d' |}] /\
      d' = N' * 3000 /\
      3 * 3000 <= d'.
Proof.
  intros w.
  split; [lia|].
  split; [unfold maxReconnectAttempts; lia|].
  split; [reflexivity|].
  apply (reconnect_delay_is_linear noon w 3);
    [ lia | unfold maxReconnectAttempts; lia | reflexivity ].
Defined.


(** What holds of the fallback where the renderer cannot throw (the page
    has [.discord-activity] or [.profile-info], or lacks a status
    element): entering the fallback
    returns normally and (1) renders at once one synthetic snapshot: the
    page is what the renderer makes of a snapshot with one of the four
    status codes and an empty activity list; (2) registers
    [updateFallbackStatus] with [setInterval] for every 60000 ms; (3) that
    registration is still there after any later run of turns; and (4) every
    firing of it renders again a snapshot with one of the four codes and an
    empty activity list. *)
Theorem fallback_renders_every_minute now w :
  renderer_safe (document w) = true ->
  let w' := exec (useFallback now) w in
  outcome (useFallback now) w = Normal tt /\
  in_fallback w' = true /\
  (exists s,
     In s ["online"; "idle"; "dnd"; "offline"] /\
     document w'
       = document (exec (updateStatus
                           (Some {| discord_status := s; activities := Some [] |})) w)) /\
  intervals w'
    = intervals w ++ [{| handler := UpdateFallbackStatus; delay := 60000 |}] /\
  (forall turns,
     In {| handler := UpdateFallbackStatus; delay := 60000 |}
        (intervals (run turns w'))) /\
  (forall now' v,
     exists s,
       In s ["online"; "idle"; "dnd"; "offline"] /\
       document (step v (now', timer_fires UpdateFallbackStatus))
         = document (exec (updateStatus
                             (Some {| discord_status := s; activities := Some [] |})) v)).
Proof.
  intros Hsafe w'.
  pose proof (useFallback_returns now w Hsafe) as Hret.
  destruct (useFallback_frame now w) as (page & logs & E & Hq).
  rewrite Hret in E. fold w' in E.
  assert (Hi : intervals w' = intervals w ++ [fallback_interval])
    by (rewrite E; reflexivity).
  split; [exact Hret|].
  split.
  { rewrite E. unfold in_fallback. simpl console.
    rewrite in_fallback_app. simpl. apply orb_true_r. }
  split.
  { exists (fallback_status now). split; [apply fallback_status_range|].
    subst w'. clear E. unfold useFallback. rewrite updateFallbackStatus_unfold.
    unfold synthetic.
    set (u := Some {| discord_status := fallback_status now;
                      activities := Some [] |}).
    set (w0 := set_console
                 (console (set_console (console w ++ [LogFallbackMode]) w)
                    ++ [LogFallbackStatus (fallback_status now)])
                 (set_console (console w ++ [LogFallbackMode]) w)).
    assert (E0 : document (exec (updateStatus u) w0)
                 = document (exec (updateStatus u) w)).
    { apply updateStatus_local. destruct w; reflexivity. }
    rewrite <- E0.
    unfold exec, bind, console_log, modify, setInterval. fold w0.
    destruct (updateStatus u w0) as [[[]|x] w1]; reflexivity. }
  split; [exact Hi|].
  split.
  { intros turns. destruct (run_keeps_intervals turns w') as [ivs Er].
    rewrite Er, Hi. apply in_or_app. left. apply in_or_app. right.
    left. reflexivity. }
  intros now' v. exists (fallback_status now').
  split; [apply fallback_status_range|].
  unfold step, dispatch, run_callback; simpl fst; simpl snd.
  rewrite updateFallbackStatus_unfold. unfold synthetic.
  set (u := Some {| discord_status := fallback_status now';
                    activities := Some [] |}).
  set (v0 := set_console
               (console v ++ [LogFallbackStatus (fallback_status now')]) v).
  assert (E0 : document (exec (updateStatus u) v0)
               = document (exec (updateStatus u) v)).
  { apply updateStatus_local. destruct v; reflexivity. }
  rewrite <- E0. reflexivity.
Qed.

Lemma fallback_renders_every_minute_witness :
  let w := run (repeat unclean 5)
               (constructor "1413802676776337469" page_without_activity) in
  let w' := exec (useFallback noon) w in
  renderer_safe (document w) = true /\
  outcome (useFallback noon) w = Normal tt /\
  in_fallback w' = true /\
  (exists s,
     In s ["online"; "idle"; "dnd"; "offline"] /\
     document w'
       = document (exec (updateStatus
                           (Some {| discord_status := s; activities := Some [] |})) w)) /\
  intervals w'
    = intervals w ++ [{| handler := UpdateFallbackStatus; delay := 60000 |}] /\
  (forall turns,
     In {| handler := UpdateFallbackStatus; delay := 60000 |}
        (intervals (run turns w'))) /\
  (forall now' v,
     exists s,
       In s ["online"; "idle"; "dnd"; "offline"] /\
       document (step v (now', timer_fires UpdateFallbackStatus))
         = document (exec (updateStatus
                             (Some {| discord_status := s; activities := Some [] |})) v)).
Proof.
  intros w w'.
  split; [reflexivity|].
  apply (fallback_renders_every_minute noon w). reflexivity.
Defined.

(** C7, at the input where the code leaves it.  On a page that has the
    status dot and the status text but neither [.discord-activity] nor
    [.profile-info], entering the fallback does not do what the claim
    says: the immediate rendering (line 210) paints the status and then
    throws a TypeError at line 143, so [setInterval] (line 211) is never
    reached and no rendering is ever scheduled.  The same happens when the
    manager gets there by itself, after a failed fetch and six connections
    that fail: the fallback is entered and no interval is registered. *)
Theorem fallback_without_containers :
  let w := constructor "1413802676776337469" page_without_containers in
  let entered := exec (useFallback noon) w in
  let exhausted :=
    run (List.concat (repeat failed_attempt 6))
        (exec (init (Rejected TypeError) noon) w) in
  has_status_elements (document w) = true /\
  discord_activity (document w) = None /\
  profile_info (document w) = false /\
  outcome (useFallback noon) w = Throw TypeError /\
  in_fallback entered = true /\
  status_text (document entered)
    = Some {| textContent := JStr "Online"; text_color := JStr "#555" |} /\
  intervals entered = [] /\
  in_fallback exhausted = true /\
  intervals exhausted = [].
Proof. repeat split; reflexivity. Qed.

(** ** Inbound messages *)

(** A frame that parses to a value with neither [op === 1] nor one of the
    two [t] is ignored: one console line, nothing else. *)
Lemma unexpected_message_is_ignored w m :
  op m <> Some 1 ->
  t m <> Some "INIT_STATE" ->
  t m <> Some "PRESENCE_UPDATE" ->
  onmessage (Json (Value m)) w
    = (Normal tt, set_console (console w ++ [LogMessage]) w).
Proof.
  intros Hop Hi Hp. unfold onmessage, JSON_parse.
  cbv [bind ret console_log modify]; simpl.
  assert (E1 : match op m with Some n => n =? 1 | None => false end = false).
  { destruct (op m) as [n|]; [|reflexivity].
    apply Z.eqb_neq. intros ->. now apply Hop. }
  assert (E2 : forall s, t m <> Some s -> strict_eq (t m) s = false).
  { intros s Hs. unfold strict_eq. destruct (t m) as [x|]; [|reflexivity].
    apply String.eqb_neq. intros ->. now apply Hs. }
  rewrite E1, (E2 _ Hi), (E2 _ Hp). reflexivity.
Qed.

(** The heartbeat probe is answered on the current socket and renders
    nothing. *)
Lemma heartbeat_is_acknowledged w m n :
  op m = Some 1 ->
  websocket w = Some n ->
  onmessage (Json (Value m)) w
    = (Normal tt,
       set_sent (sent w ++ [HeartbeatAck])
         (set_console (console w ++ [LogMessage]) w)).
Proof.
  intros Hop Hws. unfold onmessage, JSON_parse.
  destruct w; simpl in *; subst. js. rewrite Hop. reflexivity.
Qed.

(** C4, at the inputs where the code leaves it.  A frame whose text is not
    JSON makes [JSON.parse] throw a SyntaxError out of the handler, and a
    frame whose text is the JSON [null] makes [data.op] throw a TypeError
    out of it; in both cases nothing is rendered, but the error is thrown,
    not ignored. *)
Theorem malformed_message_throws w :
  onmessage Malformed w = (Throw SyntaxError, w) /\
  onmessage (Json Null) w
    = (Throw TypeError, set_console (console w ++ [LogMessage]) w).
Proof. split; reflexivity. Qed.

(** * Further properties *)

(** ** The attempt counter and the reconnections *)

(** X1.  The attempt counter never leaves the range from 0 to the ceiling:
    whatever turns follow (opens, closes, errors, messages, timers), if it
    starts between 0 and 5 it stays between 0 and 5. *)
Theorem attempts_stay_within_ceiling turns : forall w,
  0 <= reconnectAttempts w <= maxReconnectAttempts ->
  0 <= reconnectAttempts (run turns w) <= maxReconnectAttempts.
Proof.
  induction turns as [|turn turns IH]; intros w Hw; simpl; [exact Hw|].
  apply IH.
  destruct (step_shape w turn)
    as (ws & ra & page & logs & tos & ivs & sk & sends & E & H).
  rewrite E. simpl. unfold maxReconnectAttempts in *.
  destruct H as [(_ & _ & -> & _) | [(_ & -> & _)
                | [(_ & Hlt & -> & _) | (_ & _ & -> & _)]]]; lia.
Qed.

Lemma attempts_stay_within_ceiling_witness :
  let w := constructor "1413802676776337469" full_page in
  let turns := List.concat (repeat failed_attempt 7) ++ [(noon, open); unclean] in
  0 <= reconnectAttempts w <= maxReconnectAttempts /\
  0 <= reconnectAttempts (run turns w) <= maxReconnectAttempts.
Proof.
  intros w turns.
  assert (H : 0 <= reconnectAttempts w <= maxReconnectAttempts)
    by (unfold maxReconnectAttempts; simpl; lia).
  split; [exact H|].
  exact (attempts_stay_within_ceiling turns w H).
Defined.

(** X2.  An open gives the whole budget back: whatever the state before
    (even with the counter at the ceiling), an open followed by an unclean
    close counts that close as attempt 1 and schedules the reconnection
    after 3000 ms, without entering the fallback. *)
Theorem open_restores_the_budget w now turn :
  is_unclean_close turn = true ->
  let w' := step (step w (now, open)) turn in
  reconnectAttempts w' = 1 /\
  timeouts w' = timeouts w ++ [{| handler := Reconnect; delay := 3000 |}] /\
  intervals w' = intervals w /\
  in_fallback w' = in_fallback w.
Proof.
  intros Hu w'. subst w'.
  destruct (step_shape w (now, open))
    as (ws & ra & page & logs & tos & ivs & sk & sends & E & H).
  destruct H as [(Ho & _) | [(_ & -> & -> & -> & Hq)
                | [(Hc & _) | (Hc & _)]]]; try discriminate.
  set (w1 := step w (now, open)) in *.
  assert (Ha : reconnectAttempts w1 = 0) by (rewrite E; reflexivity).
  assert (Hlt : reconnectAttempts w1 < maxReconnectAttempts)
    by (rewrite Ha; unfold maxReconnectAttempts; lia).
  destruct (unclean_close_below w1 turn Hu Hlt) as (c & r & E1).
  rewrite E1, Ha. simpl.
  unfold in_fallback. simpl. rewrite E. simpl.
  rewrite !app_nil_r, !existsb_app, Hq. simpl.
  rewrite !orb_false_r. repeat split.
Qed.

Lemma open_restores_the_budget_witness :
  let w := run (List.concat (repeat failed_attempt 5))
               (constructor "1413802676776337469" full_page) in
  let w' := step (step w (noon, open)) unclean in
  is_unclean_close unclean = true /\
  reconnectAttempts w = 5 /\
  reconnectAttempts w' = 1 /\
  timeouts w' = timeouts w ++ [{| handler := Reconnect; delay := 3000 |}] /\
  intervals w' = intervals w /\
  in_fallback w' = in_fallback w.
Proof.
  intros w w'.
  split; [reflexivity|].
  split; [reflexivity|].
  apply (open_restores_the_budget w noon unclean). reflexivity.
Defined.

(** X3.  Only an unclean close schedules a reconnection or starts the
    fallback: along any run that contains no unclean close (opens, clean
    closes, errors, messages and timers in any order) the scheduled
    reconnections, the registered intervals and the fallback flag stay as
    they were. *)
Theorem only_unclean_closes_reconnect turns : forall w,
  unclean_closes turns = 0%nat ->
  reconnect_delays (run turns w) = reconnect_delays w /\
  intervals (run turns w) = intervals w /\
  in_fallback (run turns w) = in_fallback w.
Proof.
  induction turns as [|turn turns IH]; intros w Hn; simpl; [repeat split|].
  unfold unclean_closes in *. simpl in Hn.
  destruct (step_shape w turn)
    as (ws & ra & page & logs & tos & ivs & sk & sends & E & H).
  assert (Hu : is_unclean_close turn = false).
  { destruct (is_unclean_close turn); [discriminate | reflexivity]. }
  rewrite Hu in Hn.
  assert (Hs : tos = [] /\ ivs = [] /\ existsb is_fallback_log logs = false).
  { destruct H as [(_ & _ & _ & -> & -> & Hq) | [(_ & _ & -> & -> & Hq)
                  | [(Hc & _) | (Hc & _)]]]; try congruence; auto. }
  destruct Hs as (-> & -> & Hq).
  destruct (IH (step w turn) Hn) as (Hd & Hi & Hf).
  rewrite Hd, Hi, Hf, E. unfold reconnect_delays, in_fallback. simpl.
  rewrite !app_nil_r, existsb_app, Hq, orb_false_r. repeat split.
Qed.

Lemma only_unclean_closes_reconnect_witness :
  let w := constructor "1413802676776337469" full_page in
  let turns := [ (noon, timer_fires Reconnect); (noon, open); (noon, error);
                 (noon, close {| code := 1000; reason := "bye"; wasClean := true |}) ] in
  unclean_closes turns = 0%nat /\
  reconnect_delays (run turns w) = reconnect_delays w /\
  intervals (run turns w) = intervals w /\
  in_fallback (run turns w) = in_fallback w.
Proof.
  intros w turns.
  split; [reflexivity|].
  apply (only_unclean_closes_reconnect turns w). reflexivity.
Defined.

(** ** Sockets and frames *)

(** One turn, seen from the wire: the frames it sends and the socket it
    may construct. *)
Lemma step_wire w turn :
  (exists sends,
     sent (step w turn) = sent w ++ sends /\
     Forall (own_frame (userId w)) sends) /\
  ((is_reconnect_firing turn = false /\
    sockets (step w turn) = sockets w /\
    websocket (step w turn) = websocket w)
   \/
   (is_reconnect_firing turn = true /\
    sockets (step w turn) = S (sockets w) /\
    websocket (step w turn) = Some (S (sockets w)))).
Proof.
  assert (Hnil : forall l : list frame, l = l ++ [])
    by (intros; now rewrite app_nil_r).
  destruct turn as [now [ | data | e | | cb ]]; unfold step; simpl fst; simpl snd;
    unfold dispatch.
  - (* open *)
    destruct w as [? ws ? ? ? ? ? ? ? ?]; unfold onopen; js.
    destruct ws; js; (split; [| left; repeat split]).
    + exists [Subscribe userId0]. split; [reflexivity|].
      constructor; [left; reflexivity | constructor].
    + exists []. split; [apply Hnil | constructor].
  - (* message *)
    destruct data as [|[|m]]; unfold onmessage, JSON_parse.
    + destruct w; js. split; [| left; repeat split].
      exists []. split; [apply Hnil | constructor].
    + destruct w; js. split; [| left; repeat split].
      exists []. split; [apply Hnil | constructor].
    + cbv [exec bind ret console_log modify]; simpl.
      destruct (match op m with Some n => n =? 1 | None => false end).
      * destruct w as [? ws ? ? ? ? ? ? ? ?]; js.
        destruct ws; js; (split; [| left; repeat split]).
        -- exists [HeartbeatAck]. split; [reflexivity|].
           constructor; [right; reflexivity | constructor].
        -- exists []. split; [apply Hnil | constructor].
      * destruct (strict_eq (t m) "INIT_STATE" || strict_eq (t m) "PRESENCE_UPDATE").
        -- destruct (updateStatus_frame (d m)
                       (set_console (console w ++ [LogMessage]) w))
             as (page & logs & E & Hq).
           unfold exec in E. rewrite E.
           destruct w; js. split; [| left; repeat split].
           exists []. split; [apply Hnil | constructor].
        -- destruct w; js. split; [| left; repeat split].
           exists []. split; [apply Hnil | constructor].
  - (* close *)
    unfold onclose. destruct (wasClean e) eqn:Hclean; simpl negb; cbv iota.
    + destruct w; js. split; [| left; repeat split].
      exists []. split; [apply Hnil | constructor].
    + set (w0 := set_console (console w ++ [LogClosed (code e) (reason e)]) w).
      assert (Ew0 : exec (console_log (LogClosed (code e) (reason e)) ;;
                          attemptReconnect now) w
                    = exec (attemptReconnect now) w0) by reflexivity.
      rewrite Ew0. clear Ew0.
      destruct (Z.lt_ge_cases (reconnectAttempts w0) maxReconnectAttempts) as [Hlt|Hge].
      * unfold exec. rewrite (attemptReconnect_below now w0 Hlt).
        subst w0. destruct w; js. split; [| left; repeat split].
        exists []. split; [apply Hnil | constructor].
      * unfold exec. rewrite (attemptReconnect_exhausted now w0 Hge).
        destruct (useFallback_frame now
                    (set_console (console w0 ++ [LogMaxAttempts]) w0))
          as (page & logs & E & _).
        unfold exec in E. rewrite E.
        subst w0. destruct w; js. split; [| left; repeat split].
        exists []. split; [apply Hnil | constructor].
  - (* error *)
    destruct w; unfold onerror; js. split; [| left; repeat split].
    exists []. split; [apply Hnil | constructor].
  - (* timer *)
    destruct cb; unfold run_callback.
    + destruct w; js. split; [| left; repeat split].
      exists []. split; [apply Hnil | constructor].
    + destruct w; unfold connectWebSocket; js. split; [| right; repeat split].
      exists []. split; [apply Hnil | constructor].
    + destruct (updateFallbackStatus_frame now w) as (page & logs & E & Hq).
      rewrite E. destruct w; js. split; [| left; repeat split].
      exists []. split; [apply Hnil | constructor].
Qed.

Lemma step_userId w turn : userId (step w turn) = userId w.
Proof.
  destruct (step_shape w turn)
    as (ws & ra & page & logs & tos & ivs & sk & sends & E & _).
  rewrite E. reflexivity.
Qed.

(** X4.  The only frames the manager ever sends are the subscription for
    the user id it was constructed with and the heartbeat acknowledgment;
    the user id itself never changes. *)
Theorem only_subscribe_and_ack_are_sent turns : forall w,
  userId (run turns w) = userId w /\
  exists sends,
    sent (run turns w) = sent w ++ sends /\
    Forall (own_frame (userId w)) sends.
Proof.
  induction turns as [|turn turns IH]; intros w; simpl.
  - split; [reflexivity|]. exists []. split; [now rewrite app_nil_r | constructor].
  - destruct (IH (step w turn)) as (Hid & sends' & Hs' & Hf').
    destruct (step_wire w turn) as [(sends & Hs & Hf) _].
    rewrite step_userId in Hid, Hf'.
    split; [exact Hid|].
    exists (sends ++ sends'). split.
    + rewrite Hs', Hs. now rewrite app_assoc.
    + apply Forall_app. split; assumption.
Qed.

(** X5.  A socket is constructed only when a reconnection timer fires, one
    per firing, and the socket the manager talks to is always the latest
    one: after any run from a state where that holds, [this.websocket] is
    the socket constructed last, and the number of sockets has grown by the
    number of firings. *)
Theorem one_socket_per_reconnect_firing turns : forall w,
  websocket w = Some (sockets w) ->
  websocket (run turns w) = Some (sockets (run turns w)) /\
  sockets (run turns w) = (sockets w + reconnect_firings turns)%nat.
Proof.
  induction turns as [|turn turns IH]; intros w Hw; simpl.
  - split; [exact Hw | unfold reconnect_firings; simpl; lia].
  - unfold reconnect_firings in *. simpl filter.
    destruct (step_wire w turn) as [_ [(Hr & Hs & Hws) | (Hr & Hs & Hws)]];
      rewrite Hr.
    + destruct (IH (step w turn)) as [H1 H2]; [now rewrite Hws, Hs|].
      rewrite H1, H2, Hs. split; reflexivity.
    + destruct (IH (step w turn)) as [H1 H2]; [now rewrite Hws, Hs|].
      rewrite H1, H2, Hs. simpl. split; [reflexivity | lia].
Qed.

Lemma one_socket_per_reconnect_firing_witness :
  let w := exec (init (Response false NotJson) noon)
                (constructor "1413802676776337469" full_page) in
  let turns := List.concat (repeat failed_attempt 3) ++ [(noon, open)] in
  websocket w = Some (sockets w) /\
  websocket (run turns w) = Some (sockets (run turns w)) /\
  sockets (run turns w) = (sockets w + reconnect_firings turns)%nat.
Proof.
  intros w turns.
  split; [reflexivity|].
  apply (one_socket_per_reconnect_firing turns w). reflexivity.
Defined.

(** ** The page keeps its structure *)

(** [updateActivity] leaves the status elements and [.profile-info] alone;
    the activity container is there afterwards exactly when it was there
    before or could be created. *)
Lemma updateActivity_structure acts status w :
  let page := document w in
  let page' := document (exec (updateActivity acts status) w) in
  status_dot page' = status_dot page /\
  status_text page' = status_text page /\
  profile_info page' = profile_info page /\
  present (discord_activity page')
    = present (discord_activity page) || profile_info page.
Proof.
  open_world w. unfold updateActivity.
  destruct (find is_game acts), (find is_spotify acts), (find is_custom acts);
    try destruct (truthy (state _));
    destruct (negb (status =? "offline")%string);
    match goal with
    | |- context [ {| discord_activity := ?o |} ] => destruct o
    end;
    try match goal with
    | |- context [ {| profile_info := ?b |} ] => destruct b
    end;
    js; repeat split.
Qed.

(** [updateStatus] neither adds nor removes a status element or
    [.profile-info]; it creates the activity container exactly when it gets
    past its guard with a snapshot, the container is missing and
    [.profile-info] is there. *)
Lemma updateStatus_structure u w :
  let page := document w in
  let page' := document (exec (updateStatus u) w) in
  present (status_dot page') = present (status_dot page) /\
  present (status_text page') = present (status_text page) /\
  profile_info page' = profile_info page /\
  present (discord_activity page')
    = present (discord_activity page)
      || (has_status_elements page && present u && profile_info page).
Proof.
  destruct w as [? ? ? pg ? ? ? ? ? ?]. destruct pg as [dot txt el prof].
  unfold updateStatus, has_status_elements.
  destruct u as [u|];
    [| destruct dot, txt; js; rewrite ?orb_false_r; repeat split ].
  pose proof (config_defined (discord_status u)) as Hd.
  remember (or_else (get statusConfig (discord_status u))
                    (get statusConfig "offline")) as cfg eqn:Ecfg.
  clear Ecfg.
  destruct cfg as [c| |]; [ | | congruence ];
    destruct dot, txt; js; rewrite ?orb_false_r; try (repeat split; fail);
    match goal with
    | |- context [ updateActivity ?a ?s ?W ] =>
        destruct (updateActivity_structure a s W) as (H1 & H2 & H3 & H4)
    end;
    unfold exec in H1, H2, H3, H4; rewrite H1, H2, H3, H4;
    repeat split.
Qed.

(** The two callers of the renderer in the fallback leave on the page what
    the renderer makes of the synthetic snapshot. *)
Lemma updateFallbackStatus_document now w :
  document (exec (updateFallbackStatus now) w)
    = document (exec (updateStatus (Some (synthetic (fallback_status now)))) w) /\
  outcome (updateFallbackStatus now) w
    = outcome (updateStatus (Some (synthetic (fallback_status now)))) w.
Proof.
  rewrite updateFallbackStatus_unfold.
  set (u := Some (synthetic (fallback_status now))).
  set (w0 := set_console
               (console w ++ [LogFallbackStatus (fallback_status now)]) w).
  destruct (updateStatus_local u w0 w) as [Hd Ho]; [destruct w; reflexivity|].
  rewrite <- Hd, <- Ho. split; reflexivity.
Qed.

Lemma useFallback_document now w :
  document (exec (useFallback now) w)
    = document (exec (updateStatus (Some (synthetic (fallback_status now)))) w).
Proof.
  set (w0 := set_console (console w ++ [LogFallbackMode]) w).
  destruct (updateFallbackStatus_document now w0) as [Hd _].
  destruct (updateStatus_local (Some (synthetic (fallback_status now))) w0 w)
    as [Hl _]; [destruct w; reflexivity|].
  rewrite <- Hl, <- Hd.
  unfold useFallback, exec, bind, console_log, modify, setInterval. fold w0.
  destruct (updateFallbackStatus now w0) as [[[]|x] w1]; reflexivity.
Qed.

(** Whatever a turn does to the page, it does by rendering one snapshot. *)
Lemma step_document w turn :
  document (step w turn) = document w \/
  exists u, document (step w turn) = document (exec (updateStatus u) w).
Proof.
  destruct turn as [now [ | data | e | | cb ]]; unfold step; simpl fst; simpl snd;
    unfold dispatch.
  - left. destruct w as [? ws ? ? ? ? ? ? ? ?]; unfold onopen; js.
    destruct ws; reflexivity.
  - destruct data as [|[|m]]; unfold onmessage, JSON_parse.
    + left. destruct w; reflexivity.
    + left. destruct w; reflexivity.
    + cbv [exec bind ret console_log modify]; simpl.
      destruct (match op m with Some n => n =? 1 | None => false end).
      * left. destruct w as [? ws ? ? ? ? ? ? ? ?]; js. destruct ws; reflexivity.
      * destruct (strict_eq (t m) "INIT_STATE" || strict_eq (t m) "PRESENCE_UPDATE").
        -- right. exists (d m).
           apply (updateStatus_local (d m)
                    (set_console (console w ++ [LogMessage]) w) w).
           destruct w; reflexivity.
        -- left. destruct w; reflexivity.
  - unfold onclose. destruct (wasClean e) eqn:Hclean; simpl negb; cbv iota.
    + left. destruct w; reflexivity.
    + set (w0 := set_console (console w ++ [LogClosed (code e) (reason e)]) w).
      assert (Ew0 : exec (console_log (LogClosed (code e) (reason e)) ;;
                          attemptReconnect now) w
                    = exec (attemptReconnect now) w0) by reflexivity.
      rewrite Ew0. clear Ew0.
      destruct (Z.lt_ge_cases (reconnectAttempts w0) maxReconnectAttempts) as [Hlt|Hge].
      * left. unfold exec. rewrite (attemptReconnect_below now w0 Hlt).
        subst w0. destruct w; reflexivity.
      * right. exists (Some (synthetic (fallback_status now))).
        set (w1 := set_console (console w0 ++ [LogMaxAttempts]) w0).
        assert (E2 : exec (attemptReconnect now) w0 = exec (useFallback now) w1).
        { unfold exec. now rewrite (attemptReconnect_exhausted now w0 Hge). }
        rewrite E2, useFallback_document.
        apply updateStatus_local. subst w1 w0. destruct w; reflexivity.
  - left. destruct w; reflexivity.
  - destruct cb; unfold run_callback.
    + left. destruct w; reflexivity.
    + left. destruct w; reflexivity.
    + right. exists (Some (synthetic (fallback_status now))).
      apply updateFallbackStatus_document.
Qed.

Lemma has_activity_container_present (p : DOM) :
  has_activity_container p = present (discord_activity p) || profile_info p.
Proof. unfold has_activity_container. destruct (discord_activity p); reflexivity. Qed.

Lemma has_status_elements_present (p : DOM) :
  has_status_elements p = present (status_dot p) && present (status_text p).
Proof.
  unfold has_status_elements. destruct (status_dot p), (status_text p); reflexivity.
Qed.

(** One turn keeps the status elements and [.profile-info] as they are and
    can only add the activity container, and only under [.profile-info]. *)
Lemma step_structure w turn :
  present (status_dot (document (step w turn)))
    = present (status_dot (document w)) /\
  present (status_text (document (step w turn)))
    = present (status_text (document w)) /\
  profile_info (document (step w turn)) = profile_info (document w) /\
  present (discord_activity (document (step w turn)))
    = present (discord_activity (document w))
      || (present (discord_activity (document (step w turn)))
          && profile_info (document w)).
Proof.
  destruct (step_document w turn) as [E | [u E]]; rewrite E.
  - repeat split. destruct (present _), (profile_info _); reflexivity.
  - destruct (updateStatus_structure u w) as (H1 & H2 & H3 & H4).
    rewrite H1, H2, H3, H4. repeat split.
    destruct (present (discord_activity (document w))),
             (has_status_elements (document w)), (present u),
             (profile_info (document w)); reflexivity.
Qed.

Lemma step_keeps_containers w turn :
  has_status_elements (document (step w turn)) = has_status_elements (document w) /\
  has_activity_container (document (step w turn))
    = has_activity_container (document w).
Proof.
  destruct (step_structure w turn) as (S1 & S2 & S3 & S4).
  rewrite !has_status_elements_present, !has_activity_container_present, S1, S2, S3.
  split; [reflexivity|]. revert S4.
  destruct (present (discord_activity (document (step w turn)))),
           (present (discord_activity (document w))),
           (profile_info (document w)); simpl; intros; congruence.
Qed.


(** ** When a handler throws *)

(** On a page where the renderer cannot throw, with a socket to send on, a
    well-formed turn returns normally. *)
Lemma dispatch_returns w turn :
  renderer_safe (document w) = true ->
  websocket w <> None ->
  well_formed turn = true ->
  outcome (dispatch (fst turn) (snd turn)) w = Normal tt.
Proof.
  intros Hsafe Hws Hwf.
  destruct turn as [now [ | data | e | | cb ]]; simpl fst; simpl snd;
    unfold dispatch.
  - destruct w as [? ws ? ? ? ? ? ? ? ?]; unfold onopen; js.
    destruct ws; [reflexivity | now elim Hws].
  - destruct data as [|[|m]]; try discriminate.
    unfold well_formed in Hwf. simpl in Hwf.
    unfold onmessage, JSON_parse.
    cbv [outcome bind ret console_log modify]; simpl.
    destruct (match op m with Some n => n =? 1 | None => false end).
    + destruct w as [? ws ? ? ? ? ? ? ? ?]; js.
      destruct ws; [reflexivity | now elim Hws].
    + destruct (strict_eq (t m) "INIT_STATE" || strict_eq (t m) "PRESENCE_UPDATE");
        [| reflexivity].
      destruct (d m) as [u|]; [| discriminate].
      apply (updateStatus_returns (set_console (console w ++ [LogMessage]) w) u).
      destruct w; exact Hsafe.
  - unfold onclose. destruct (wasClean e) eqn:Hclean; simpl negb; cbv iota.
    + destruct w; reflexivity.
    + set (w0 := set_console (console w ++ [LogClosed (code e) (reason e)]) w).
      assert (Ew0 : outcome (console_log (LogClosed (code e) (reason e)) ;;
                             attemptReconnect now) w
                    = outcome (attemptReconnect now) w0) by reflexivity.
      rewrite Ew0. clear Ew0.
      destruct (Z.lt_ge_cases (reconnectAttempts w0) maxReconnectAttempts) as [Hlt|Hge].
      * unfold outcome. now rewrite (attemptReconnect_below now w0 Hlt).
      * unfold outcome. rewrite (attemptReconnect_exhausted now w0 Hge).
        apply (useFallback_returns now
                 (set_console (console w0 ++ [LogMaxAttempts]) w0)).
        subst w0. destruct w; exact Hsafe.
  - destruct w; reflexivity.
  - destruct cb; unfold run_callback.
    + destruct w; reflexivity.
    + destruct w; reflexivity.
    + destruct (updateFallbackStatus_document now w) as [_ Ho]. rewrite Ho.
      now apply updateStatus_returns.
Qed.

(** X7.  Well-formed turns never throw.  Starting on a page where the
    renderer cannot throw (it has [.discord-activity] or [.profile-info],
    or lacks a status element) and with a socket constructed, along any
    run of turns whose frames are JSON other than [null] and whose data
    messages carry their snapshot, every handler returns normally. *)
Theorem well_formed_turns_never_throw pre : forall w turn,
  renderer_safe (document w) = true ->
  websocket w <> None ->
  forallb well_formed (pre ++ [turn]) = true ->
  outcome (dispatch (fst turn) (snd turn)) (run pre w) = Normal tt.
Proof.
  induction pre as [|first pre IH]; intros w turn Hsafe Hws Hwf.
  - simpl in *. apply andb_prop in Hwf as [Hwf _].
    now apply dispatch_returns.
  - simpl in Hwf. apply andb_prop in Hwf as [_ Hwf].
    simpl run. apply IH; [| | exact Hwf].
    + destruct (step_keeps_containers w first) as [S1 S2].
      unfold renderer_safe in *. now rewrite S1, S2.
    + destruct (step_wire w first) as [_ [(_ & _ & E) | (_ & _ & E)]];
        rewrite E; [exact Hws | discriminate].
Qed.

Lemma well_formed_turns_never_throw_witness :
  let w := exec (init (Rejected AbortError) noon)
                (constructor "1413802676776337469" page_without_activity) in
  let snapshot := {| discord_status := "dnd"; activities := Some [spotify] |} in
  let update := {| op := None; t := Some "PRESENCE_UPDATE"; d := Some snapshot |} in
  let pre := [ (noon, open);
               (noon, message_event (Json (Value update)));
               unclean; (noon, timer_fires Reconnect); (noon, open) ] in
  let turn := (noon, message_event (Json (Value update))) in
  renderer_safe (document w) = true /\
  websocket w <> None /\
  forallb well_formed (pre ++ [turn]) = true /\
  outcome (dispatch (fst turn) (snd turn)) (run pre w) = Normal tt.
Proof.
  intros w snapshot update pre turn.
  assert (Hws : websocket w <> None) by discriminate.
  split; [reflexivity|].
  split; [exact Hws|].
  split; [reflexivity|].
  exact (well_formed_turns_never_throw pre w turn eq_refl Hws eq_refl).
Defined.

(** ** Rendering twice, and rendering one snapshot after another *)

Lemma updateActivity_idempotent acts status w :
  document (exec (updateActivity acts status)
                 (exec (updateActivity acts status) w))
    = document (exec (updateActivity acts status) w).
Proof.
  open_world w. unfold updateActivity.
  destruct (find is_game acts), (find is_spotify acts), (find is_custom acts);
    try destruct (truthy (state _));
    destruct (negb (status =? "offline")%string);
    match goal with
    | |- context [ {| discord_activity := ?o |} ] => destruct o
    end;
    try match goal with
    | |- context [ {| profile_info := ?b |} ] => destruct b
    end;
    js; reflexivity.
Qed.

(** X8.  Rendering is idempotent: rendering the same snapshot a second
    time leaves the page exactly as the first rendering left it, whatever
    the page and the snapshot (also when the renderer stops at its guard or
    throws). *)
Theorem rendering_is_idempotent u w :
  document (exec (updateStatus u) (exec (updateStatus u) w))
    = document (exec (updateStatus u) w).
Proof.
  destruct w as [? ? ? pg ? ? ? ? ? ?]. destruct pg as [dot txt el prof].
  destruct u as [u|];
    [| unfold updateStatus; destruct dot, txt; js; reflexivity ].
  destruct dot as [dot|]; [| unfold updateStatus; destruct txt; js; reflexivity ].
  destruct txt as [txt|]; [| unfold updateStatus; js; reflexivity ].
  pose proof (config_defined (discord_status u)) as Hd.
  remember (or_else (get statusConfig (discord_status u))
                    (get statusConfig "offline")) as cfg eqn:Ecfg.
  set (A := updateActivity (or_empty (activities u)) (discord_status u)).
  destruct cfg as [c| |]; [ | | congruence ].
  all: unfold exec;
       match goal with
       | |- context [ updateStatus _ (snd (updateStatus _ ?W)) ] =>
           eassert (E1 : updateStatus (Some u) W = A _)
             by (unfold updateStatus; rewrite <- Ecfg; js; reflexivity)
       end;
       rewrite E1;
       match type of E1 with
       | _ = ?f ?W1 =>
           destruct (updateActivity_frame (or_empty (activities u))
                       (discord_status u) W1) as [el' Hel];
           pose proof (updateActivity_idempotent (or_empty (activities u))
                         (discord_status u) W1) as Hidem
       end;
       fold A in Hel, Hidem; unfold exec in Hel, Hidem;
       rewrite Hel in Hidem |- *; simpl in Hidem |- *;
       match goal with
       | |- document (snd (updateStatus _ ?W2)) = _ =>
           eassert (E2 : updateStatus (Some u) W2 = A _)
             by (unfold updateStatus; rewrite <- Ecfg; js; reflexivity)
       end;
       rewrite E2;
       etransitivity; cycle 1; [ exact Hidem | ];
       apply updateActivity_local; reflexivity.
Qed.





(** ** The renderer on a page without containers *)

Lemma updateStatus_throws w u :
  has_status_elements (document w) = true ->
  has_activity_container (document w) = false ->
  outcome (updateStatus (Some u)) w = Throw TypeError.
Proof.
  intros Hg Hc.
  destruct (updateStatus_then_updateActivity w u Hg) as (w1 & E & Ha & Hp & _).
  unfold outcome. rewrite E.
  unfold has_activity_container in Hc. rewrite <- Ha, <- Hp in Hc.
  destruct w1 as [? ? ? pg ? ? ? ? ? ?]. destruct pg as [dt tx ac pr].
  simpl in Hc. destruct ac; [discriminate|]. subst pr.
  unfold updateActivity. js. reflexivity.
Qed.



Lemma useFallback_throws now w :
  has_status_elements (document w) = true ->
  has_activity_container (document w) = false ->
  outcome (useFallback now) w = Throw TypeError.
Proof.
  intros Hg Hc.
  set (w0 := set_console (console w ++ [LogFallbackMode]) w).
  destruct (updateFallbackStatus_document now w0) as [_ Ho].
  assert (Ht : outcome (updateFallbackStatus now) w0 = Throw TypeError).
  { rewrite Ho. apply updateStatus_throws; subst w0; destruct w; assumption. }
  unfold useFallback, outcome, bind, console_log, modify, setInterval in *.
  fold w0. destruct (updateFallbackStatus now w0) as [[[]|x] w1];
    simpl in *; congruence.
Qed.

(** An unclean close at the ceiling is two log lines and [useFallback]. *)
Lemma unclean_close_at_ceiling w now e :
  wasClean e = false ->
  maxReconnectAttempts <= reconnectAttempts w ->
  dispatch now (close e) w
    = useFallback now
        (set_console (console w ++ [LogClosed (code e) (reason e); LogMaxAttempts]) w).
Proof.
  intros Hu Hge.
  set (w0 := set_console (console w ++ [LogClosed (code e) (reason e)]) w).
  assert (E0 : dispatch now (close e) w = attemptReconnect now w0).
  { unfold dispatch, onclose, bind, console_log, modify; simpl.
    rewrite Hu. reflexivity. }
  rewrite E0, (attemptReconnect_exhausted now w0 Hge).
  subst w0. destruct w; js. now rewrite <- app_assoc.
Qed.

(** X11.  On a page with the status elements but without the activity
    container and without [.profile-info], the fallback never gets its
    interval: the first rendering throws before [setInterval] is reached,
    so along any run from such a page no interval is ever registered. *)
Theorem fallback_never_ticks_without_containers turns : forall w,
  has_status_elements (document w) = true ->
  has_activity_container (document w) = false ->
  intervals (run turns w) = intervals w.
Proof.
  induction turns as [|turn turns IH]; intros w Hg Hc; simpl; [reflexivity|].
  destruct (step_keeps_containers w turn) as [S1 S2].
  rewrite IH; [| now rewrite S1 | now rewrite S2].
  destruct (step_shape w turn)
    as (ws & ra & page & logs & tos & ivs & sk & sends & E & H).
  destruct H as [(_ & _ & _ & _ & -> & _) | [(_ & _ & _ & -> & _)
                | [(_ & _ & _ & _ & -> & _) | (Hu & Hge & _)]]];
    try (rewrite E; simpl; apply app_nil_r).
  clear E. destruct turn as [now [ | | e | | ]]; try discriminate.
  unfold is_unclean_close in Hu. simpl in Hu. apply negb_true_iff in Hu.
  change (step w (now, close e)) with (snd (dispatch now (close e) w)).
  rewrite (unclean_close_at_ceiling w now e Hu Hge).
  set (w1 := set_console _ w).
  destruct (useFallback_frame now w1) as (pg & lg & E & _).
  unfold exec in E. rewrite E.
  rewrite (useFallback_throws now w1);
    [| subst w1; destruct w; assumption | subst w1; destruct w; assumption ].
  subst w1. destruct w; simpl. apply app_nil_r.
Qed.

Lemma fallback_never_ticks_without_containers_witness :
  let w := constructor "1413802676776337469" page_without_containers in
  let turns := List.concat (repeat failed_attempt 6)
               ++ [(noon, timer_fires UpdateFallbackStatus)] in
  has_status_elements (document w) = true /\
  has_activity_container (document w) = false /\
  in_fallback (run turns w) = true /\
  intervals (run turns w) = intervals w.
Proof.
  intros w turns.
  split; [reflexivity|].
  split; [reflexivity|].
  split; [reflexivity|].
  exact (fallback_never_ticks_without_containers turns w eq_refl eq_refl).
Defined.

(** ** The one-shot fetch *)

(** X12.  [fetchInitialStatus] never throws.  It returns true exactly
    when the fetch answered with an ok status and a success envelope and
    the renderer returned normally on its data, and false in every other
    case.  It always registers the 5000 ms abort timer, and clears it
    exactly when the fetch produced a response (a rejected fetch leaves
    the timer pending); it touches no interval, no frame and not the
    attempt counter. *)
Theorem initial_fetch_result r w :
  let w' := exec (fetchInitialStatus r) w in
  (exists b,
     outcome (fetchInitialStatus r) w = Normal b /\
     (b = true <->
      exists data,
        r = Response true (Envelope true data) /\
        outcome (updateStatus data) w = Normal tt)) /\
  timeouts w' = timeouts w ++ [{| handler := AbortFetch; delay := 5000 |}] /\
  cleared w'
    = cleared w ++ match r with
                   | Rejected _ => []
                   | Response _ _ => [List.length (timeouts w)]
                   end /\
  intervals w' = intervals w /\
  sent w' = sent w /\
  reconnectAttempts w' = reconnectAttempts w.
Proof.
  intros w'. subst w'.
  destruct r as [e | ok [ | | success data]].
  - destruct e; destruct w; unfold fetchInitialStatus; js;
      (split; [ exists false; split; [reflexivity|];
                split; [discriminate | intros (? & ? & _); discriminate]
              | rewrite ?app_nil_r; repeat split ]).
  - destruct ok; destruct w; unfold fetchInitialStatus; js;
      (split; [ exists false; split; [reflexivity|];
                split; [discriminate | intros (? & ? & _); discriminate]
              | repeat split ]).
  - destruct ok; destruct w; unfold fetchInitialStatus; js;
      (split; [ exists false; split; [reflexivity|];
                split; [discriminate | intros (? & ? & _); discriminate]
              | repeat split ]).
  - destruct ok, success;
      try (destruct w; unfold fetchInitialStatus; js;
           (split; [ exists false; split; [reflexivity|];
                     split; [discriminate | intros (? & ? & _); discriminate]
                   | repeat split ]); fail).
    unfold fetchInitialStatus.
    cbv [exec outcome bind try_catch ret setTimeout clearTimeout gets modify];
      simpl.
    match goal with
    | |- context [ updateStatus data ?W ] =>
        destruct (updateStatus_frame data W) as (page & logs & E & Hq);
        destruct (updateStatus_local data W w) as [_ Ho];
          [ destruct w; reflexivity | ];
        unfold exec in E; unfold outcome in Ho;
        destruct (updateStatus data W) as [[[]|x] w1] eqn:Eu
    end; simpl in E, Ho; subst w1; clear Eu.
    + destruct w; js.
      split; [ exists true; split; [reflexivity|];
               split; [ intros _; exists data; split; [reflexivity|];
                        unfold outcome; now rewrite <- Ho
                      | reflexivity ]
             | repeat split ].
    + destruct x; destruct w; js;
        (split; [ exists false; split; [reflexivity|];
                  split; [ discriminate
                         | intros (data' & Hr & Hn); inversion Hr; subst data';
                           unfold outcome in Hn; simpl in Hn;
                           rewrite <- Ho in Hn; discriminate ]
                | repeat split ]).
Qed.

(** ** The status table on the page *)

(** X13.  For every status code that is not the name of an
    [Object.prototype] member, on a page with the status elements, the
    renderer paints exactly the table: a recognized code (online, idle,
    dnd, offline) gets the colour, shadow and label of its own entry, and
    every other code gets those of the offline entry; the dot and the label
    always carry the same colour. *)
Theorem status_is_painted_from_the_table w u :
  has_status_elements (document w) = true ->
  existsb (String.eqb (discord_status u)) Object_prototype = false ->
  let c := match own_property statusConfig (discord_status u) with
           | Some entry => entry
           | None => {| color := "#333"; text := "Offline"; shadow := "0 0 5px #333" |}
           end in
  let page' := document (exec (updateStatus (Some u)) w) in
  status_dot page'
    = Some {| background := JStr (color c); boxShadow := JStr (shadow c) |} /\
  status_text page'
    = Some {| textContent := JStr (text c); text_color := JStr (color c) |}.
Proof.
  intros Hg Hp c page'. subst c page'.
  apply updateStatus_paints; [exact Hg|].
  unfold get at 1. rewrite Hp.
  destruct (own_property statusConfig (discord_status u)); reflexivity.
Qed.

Lemma status_is_painted_from_the_table_witness :
  let w := constructor "1413802676776337469" page_without_activity in
  let u := {| discord_status := "streaming"; activities := None |} in
  let page' := document (exec (updateStatus (Some u)) w) in
  has_status_elements (document w) = true /\
  existsb (String.eqb (discord_status u)) Object_prototype = false /\
  status_dot page'
    = Some {| background := JStr "#333"; boxShadow := JStr "0 0 5px #333" |} /\
  status_text page'
    = Some {| textContent := JStr "Offline"; text_color := JStr "#333" |}.
Proof.
  intros w u page'.
  split; [reflexivity|].
  split; [reflexivity|].
  exact (status_is_painted_from_the_table w u eq_refl eq_refl).
Defined.

(** ** Messages, one turn at a time *)

(** X14.  A heartbeat probe is only acknowledged.  A frame with op 1,
    whatever else it carries (also a [t] of a data message and a snapshot),
    received while a socket is current, makes the handler return normally
    having sent exactly one acknowledgment; the page, the timers, the
    intervals and the attempt counter are untouched. *)
Theorem heartbeat_is_only_acknowledged w now m n :
  op m = Some 1 ->
  websocket w = Some n ->
  let turn := (now, message_event (Json (Value m))) in
  outcome (dispatch (fst turn) (snd turn)) w = Normal tt /\
  sent (step w turn) = sent w ++ [HeartbeatAck] /\
  document (step w turn) = document w /\
  timeouts (step w turn) = timeouts w /\
  intervals (step w turn) = intervals w /\
  reconnectAttempts (step w turn) = reconnectAttempts w.
Proof.
  intros Hop Hws turn. subst turn.
  unfold step, exec, outcome. simpl fst; simpl snd. unfold dispatch.
  rewrite (heartbeat_is_acknowledged w m n Hop Hws).
  destruct w; repeat split.
Qed.

Lemma heartbeat_is_only_acknowledged_witness :
  let w := exec (init (Rejected TypeError) noon)
                (constructor "1413802676776337469" full_page) in
  let m := {| op := Some 1; t := Some "PRESENCE_UPDATE";
              d := Some {| discord_status := "dnd"; activities := None |} |} in
  let turn := (noon, message_event (Json (Value m))) in
  op m = Some 1 /\
  websocket w = Some 1%nat /\
  outcome (dispatch (fst turn) (snd turn)) w = Normal tt /\
  sent (step w turn) = sent w ++ [HeartbeatAck] /\
  document (step w turn) = document w /\
  timeouts (step w turn) = timeouts w /\
  intervals (step w turn) = intervals w /\
  reconnectAttempts (step w turn) = reconnectAttempts w.
Proof.
  intros w m turn.
  split; [reflexivity|].
  split; [reflexivity|].
  exact (heartbeat_is_only_acknowledged w noon m 1%nat eq_refl eq_refl).
Defined.

(** X15.  A frame that parses to a value other than [null] and is neither
    a heartbeat probe (op 1) nor a data message ([t] INIT_STATE or
    PRESENCE_UPDATE) is ignored: the handler returns normally and the only
    trace is the console line of line 66. *)
Theorem other_frames_are_ignored w now m :
  op m <> Some 1 ->
  t m <> Some "INIT_STATE" ->
  t m <> Some "PRESENCE_UPDATE" ->
  let turn := (now, message_event (Json (Value m))) in
  outcome (dispatch (fst turn) (snd turn)) w = Normal tt /\
  step w turn = set_console (console w ++ [LogMessage]) w.
Proof.
  intros Hop Hi Hp turn. subst turn.
  unfold step, exec, outcome. simpl fst; simpl snd. unfold dispatch.
  rewrite (unexpected_message_is_ignored w m Hop Hi Hp). split; reflexivity.
Qed.

Lemma other_frames_are_ignored_witness :
  let w := exec (init (Rejected TypeError) noon)
                (constructor "1413802676776337469" full_page) in
  let m := {| op := Some 7; t := Some "HELLO"; d := None |} in
  let turn := (noon, message_event (Json (Value m))) in
  op m <> Some 1 /\
  t m <> Some "INIT_STATE" /\
  t m <> Some "PRESENCE_UPDATE" /\
  outcome (dispatch (fst turn) (snd turn)) w = Normal tt /\
  step w turn = set_console (console w ++ [LogMessage]) w.
Proof.
  intros w m turn.
  assert (H1 : op m <> Some 1) by discriminate.
  assert (H2 : t m <> Some "INIT_STATE") by discriminate.
  assert (H3 : t m <> Some "PRESENCE_UPDATE") by discriminate.
  split; [exact H1|]. split; [exact H2|]. split; [exact H3|].
  exact (other_frames_are_ignored w noon m H1 H2 H3).
Defined.

(** X16.  A data message is rendered and nothing else: for a frame that is
    not a heartbeat probe and whose [t] is INIT_STATE or PRESENCE_UPDATE,
    the page after the turn is the page the renderer makes of the snapshot
    under [d]; no frame is sent, no timer or interval is registered and the
    attempt counter stays. *)
Theorem data_message_is_rendered w now m :
  op m <> Some 1 ->
  t m = Some "INIT_STATE" \/ t m = Some "PRESENCE_UPDATE" ->
  let turn := (now, message_event (Json (Value m))) in
  document (step w turn) = document (exec (updateStatus (d m)) w) /\
  sent (step w turn) = sent w /\
  timeouts (step w turn) = timeouts w /\
  intervals (step w turn) = intervals w /\
  reconnectAttempts (step w turn) = reconnectAttempts w.
Proof.
  intros Hop Ht turn. subst turn.
  assert (E1 : match op m with Some n => n =? 1 | None => false end = false).
  { destruct (op m) as [n|]; [|reflexivity].
    apply Z.eqb_neq. intros ->. now apply Hop. }
  assert (E2 : strict_eq (t m) "INIT_STATE" || strict_eq (t m) "PRESENCE_UPDATE"
               = true).
  { destruct Ht as [-> | ->]; reflexivity. }
  set (w0 := set_console (console w ++ [LogMessage]) w).
  assert (E : step w (now, message_event (Json (Value m)))
              = exec (updateStatus (d m)) w0).
  { unfold step, exec. simpl fst; simpl snd. unfold dispatch, onmessage, JSON_parse.
    cbv [bind ret console_log modify]; simpl. rewrite E1, E2. reflexivity. }
  rewrite E.
  destruct (updateStatus_local (d m) w0 w) as [Hd _]; [destruct w; reflexivity|].
  destruct (updateStatus_frame (d m) w0) as (page & logs & Ef & _).
  split; [exact Hd|]. rewrite Ef. destruct w; repeat split.
Qed.

Lemma data_message_is_rendered_witness :
  let w := exec (init (Rejected TypeError) noon)
                (constructor "1413802676776337469" full_page) in
  let m := {| op := Some 0; t := Some "PRESENCE_UPDATE";
              d := Some {| discord_status := "dnd"; activities := Some [] |} |} in
  let turn := (noon, message_event (Json (Value m))) in
  op m <> Some 1 /\
  (t m = Some "INIT_STATE" \/ t m = Some "PRESENCE_UPDATE") /\
  document (step w turn) = document (exec (updateStatus (d m)) w) /\
  sent (step w turn) = sent w /\
  timeouts (step w turn) = timeouts w /\
  intervals (step w turn) = intervals w /\
  reconnectAttempts (step w turn) = reconnectAttempts w.
Proof.
  intros w m turn.
  assert (H1 : op m <> Some 1) by discriminate.
  assert (H2 : t m = Some "INIT_STATE" \/ t m = Some "PRESENCE_UPDATE")
    by (right; reflexivity).
  split; [exact H1|]. split; [exact H2|].
  exact (data_message_is_rendered w noon m H1 H2).
Defined.

(** ** The fallback generator by the clock *)


(** ** The particle list *)

Section ParticleFacts.

Variable number : Type.
Variable plus : number -> number -> number.
Variable minus : number -> number -> number.
Variable le_zero : number -> bool.
Variable below_03 : number -> bool.
Variable gravity : number.

Local Abbreviation particle := (ParticleSystem.particle number).
Local Abbreviation advance := (ParticleSystem.advance number plus minus below_03 gravity).
Local Abbreviation loop := (ParticleSystem.loop number plus minus le_zero below_03 gravity).
Local Abbreviation sweep := (ParticleSystem.sweep number plus minus le_zero below_03 gravity).
Local Abbreviation updateParticles :=
  (ParticleSystem.updateParticles number plus minus le_zero below_03 gravity).
Local Abbreviation createParticle := (ParticleSystem.createParticle number).
Local Abbreviation prun := (ParticleSystem.run number plus minus le_zero below_03 gravity).
Local Abbreviation pstep := (ParticleSystem.step number plus minus le_zero below_03 gravity).

(** The index loop with [splice] is the single backwards pass. *)
Lemma loop_sweep random (visited : list particle) : forall calls suffix,
  loop random calls (List.length visited) (rev visited ++ suffix)
    = rev (sweep random calls visited) ++ suffix.
Proof.
  induction visited as [|p rest IH]; intros calls suffix; [reflexivity|].
  simpl List.length. simpl rev. simpl ParticleSystem.loop.
  assert (Hlen : List.length (rev rest) = List.length rest) by apply length_rev.
  assert (Hnth : nth_error ((rev rest ++ [p]) ++ suffix) (List.length rest)
                 = Some p).
  { rewrite <- app_assoc, nth_error_app2; rewrite Hlen; [|lia].
    now rewrite Nat.sub_diag. }
  rewrite Hnth.
  assert (Hfirst : firstn (List.length rest) ((rev rest ++ [p]) ++ suffix)
                   = rev rest).
  { rewrite <- app_assoc, firstn_app, Hlen, Nat.sub_diag. simpl.
    rewrite app_nil_r. rewrite <- Hlen. apply firstn_all. }
  assert (Hskip : skipn (S (List.length rest)) ((rev rest ++ [p]) ++ suffix)
                  = suffix).
  { rewrite skipn_app, length_app, Hlen. simpl List.length.
    replace (S (List.length rest) - (List.length rest + 1))%nat with 0%nat by lia.
    rewrite skipn_all2; [reflexivity|].
    rewrite length_app, Hlen. simpl. lia. }
  unfold ParticleSystem.splice, ParticleSystem.store.
  rewrite Hfirst, Hskip. simpl ParticleSystem.sweep.
  match goal with
  | |- context [ if ?c then _ else _ ] => destruct c
  end.
  - rewrite IH. reflexivity.
  - rewrite IH. simpl. rewrite <- app_assoc. reflexivity.
Qed.

Lemma sweep_alive random (visited : list particle) : forall calls,
  Forall (fun p => le_zero (ParticleSystem.life number p) = false)
         (sweep random calls visited).
Proof.
  induction visited as [|p rest IH]; intros calls; [constructor|].
  destruct (le_zero (ParticleSystem.life number (advance (random calls) p))) eqn:E;
    pose proof E as E'; simpl in E'; simpl; rewrite E'; simpl;
    [apply IH | constructor; [exact E | apply IH]].
Qed.

Lemma sweep_length random (visited : list particle) : forall calls,
  (List.length (sweep random calls visited) <= List.length visited)%nat.
Proof.
  induction visited as [|p rest IH]; intros calls; simpl; [lia|].
  specialize (IH (S calls)).
  match goal with
  | |- context [ if ?c then _ else _ ] => destruct c
  end; simpl; lia.
Qed.

Lemma updateParticles_sweep random (particles : list particle) :
  updateParticles random particles = rev (sweep random 0 (rev particles)).
Proof.
  unfold ParticleSystem.updateParticles.
  pose proof (loop_sweep random (rev particles) 0 []) as H.
  rewrite length_rev, rev_involutive, !app_nil_r in H. exact H.
Qed.

(** X18.  A frame removes the dead and keeps the order.  The backwards
    loop with [splice] visits every particle exactly once, last first:
    the k-th visited is advanced with the k-th random number of the frame
    and dropped when its life has run out.  So afterwards no particle
    with life <= 0 is left, and the list has not grown. *)
Theorem frame_removes_the_dead random (particles : list particle) :
  updateParticles random particles = rev (sweep random 0 (rev particles)) /\
  Forall (fun p => le_zero (ParticleSystem.life number p) = false)
         (updateParticles random particles) /\
  (List.length (updateParticles random particles) <= List.length particles)%nat.
Proof.
  rewrite updateParticles_sweep. split; [reflexivity|]. split.
  - apply Forall_rev. apply sweep_alive.
  - rewrite length_rev, <- (length_rev particles). apply sweep_length.
Qed.

Lemma step_bounded (particles : list particle) e :
  (List.length particles <= ParticleSystem.maxParticles)%nat ->
  (List.length (pstep particles e) <= ParticleSystem.maxParticles)%nat.
Proof.
  intros H. destruct e as [fresh | random]; simpl.
  - unfold ParticleSystem.createParticle.
    destruct (Nat.ltb_spec (List.length particles) ParticleSystem.maxParticles);
      [| exact H].
    rewrite length_app. simpl. lia.
  - rewrite updateParticles_sweep, length_rev.
    pose proof (sweep_length random (rev particles) 0) as Hs.
    rewrite length_rev in Hs. lia.
Qed.

(** X19.  The particle count is bounded.  Whatever the mouse does and
    whatever the frames compute, a list that holds at most 50 particles
    (the constructor's empty list does) never holds more than 50; a
    mouse move on a full list creates nothing. *)
Theorem particle_count_is_bounded events : forall particles : list particle,
  (List.length particles <= ParticleSystem.maxParticles)%nat ->
  (List.length (prun events particles) <= 50)%nat /\
  (forall fresh full,
     List.length full = 50%nat -> createParticle fresh full = full).
Proof.
  induction events as [|e events IH]; intros particles H.
  - split; [exact H|].
    intros fresh full Hfull. unfold ParticleSystem.createParticle.
    rewrite Hfull. reflexivity.
  - simpl. apply IH. now apply step_bounded.
Qed.

End ParticleFacts.

Lemma particle_count_is_bounded_witness :
  let fresh := {| ParticleSystem.x := 10; ParticleSystem.y := 20;
                  ParticleSystem.vx := 1; ParticleSystem.vy := -1;
                  ParticleSystem.life := 3; ParticleSystem.decay := 1;
                  ParticleSystem.size := 2; ParticleSystem.color := "hsl" |} in
  let events := repeat (ParticleSystem.mousemove Z fresh) 60
                ++ [ParticleSystem.animate Z (fun _ => 0)]
                ++ repeat (ParticleSystem.mousemove Z fresh) 60 in
  (List.length (@nil (ParticleSystem.particle Z)) <= ParticleSystem.maxParticles)%nat /\
  (List.length (ParticleSystem.run Z Z.add Z.sub (fun a => Z.leb a 0)
                  (fun a => Z.ltb a 3) 5%Z events [])
     <= 50)%nat /\
  (forall fresh' full,
     List.length full = 50%nat ->
     ParticleSystem.createParticle Z fresh' full = full).
Proof.
  intros fresh events.
  assert (H : (List.length (@nil (ParticleSystem.particle Z))
                 <= ParticleSystem.maxParticles)%nat)
    by (unfold ParticleSystem.maxParticles; simpl; lia).
  split; [exact H|].
  exact (particle_count_is_bounded Z Z.add Z.sub (fun a => Z.leb a 0)
           (fun a => Z.ltb a 3) 5 events [] H).
Defined.

(** ** The music button *)

(** The [pause()] calls made so far, plus one while the flag is up, never
    exceed those before plus the promises resolved in between. *)
Lemma pauses_need_resolutions events : forall s,
  (List.length (filter SoundManager.is_pause
                  (SoundManager.calls (SoundManager.run events s)))
     + (if SoundManager.isPlaying (SoundManager.run events s) then 1 else 0)
   <= List.length (filter SoundManager.is_pause (SoundManager.calls s))
      + (if SoundManager.isPlaying s then 1 else 0)
      + List.length (filter SoundManager.is_resolution events))%nat.
Proof.
  induction events as [|e events IH]; intros s; simpl; [lia|].
  specialize (IH (SoundManager.step s e)).
  assert (Hstep :
    (List.length (filter SoundManager.is_pause
                    (SoundManager.calls (SoundManager.step s e)))
       + (if SoundManager.isPlaying (SoundManager.step s e) then 1 else 0)
     <= List.length (filter SoundManager.is_pause (SoundManager.calls s))
        + (if SoundManager.isPlaying s then 1 else 0)
        + (if SoundManager.is_resolution e then 1 else 0))%nat).
  { destruct s as [playing has cs pd lg tc ap].
    destruct e as [r | resolved]; simpl.
    - unfold SoundManager.click, SoundManager.toggleMusic. simpl.
      destruct has, playing, r; simpl; rewrite ?filter_app, ?length_app; simpl; lia.
    - unfold SoundManager.settle. simpl.
      destruct pd, playing, resolved; simpl; lia. }
  destruct (SoundManager.is_resolution e); simpl in *; lia.
Qed.

(** X20.  [pause()] needs a resolved [play()].  From the constructor's
    state, along any sequence of clicks and settled promises, the number of
    [pause()] calls never exceeds the number of [play()] promises that
    resolved; so where [play()] returns no promise, or every promise is
    rejected, [pause()] is never called and [isPlaying] stays false. *)
Theorem pause_needs_a_resolved_play events has_music :
  let s := SoundManager.run events (SoundManager.constructor has_music) in
  (List.length (filter SoundManager.is_pause (SoundManager.calls s))
   <= List.length (filter SoundManager.is_resolution events))%nat /\
  (filter SoundManager.is_resolution events = [] ->
   SoundManager.isPlaying s = false /\
   filter SoundManager.is_pause (SoundManager.calls s) = []).
Proof.
  intros s. subst s.
  pose proof (pauses_need_resolutions events (SoundManager.constructor has_music))
    as H.
  simpl in H. split.
  - destruct (SoundManager.isPlaying _); lia.
  - intros Hnone. rewrite Hnone in H. simpl in H.
    destruct (SoundManager.isPlaying _); [lia|].
    split; [reflexivity|].
    destruct (filter SoundManager.is_pause _); [reflexivity | simpl in H; lia].
Qed.

(** X21.  The button can say playing while nothing plays.  On a stopped
    player with its audio element and no promise pending, a click whose
    [play()] promise is then rejected leaves the button showing the pause
    icon with aria-pressed true although [isPlaying] is false; the next
    click calls [play()] again, not [pause()]. *)
Theorem rejected_play_leaves_the_pause_icon s r :
  SoundManager.music s = true ->
  SoundManager.isPlaying s = false ->
  SoundManager.pending s = 0%nat ->
  let s' := SoundManager.settle false (SoundManager.click SoundManager.Promise s) in
  SoundManager.textContent s' = Some SoundManager.pause_icon /\
  SoundManager.aria_pressed s' = Some true /\
  SoundManager.isPlaying s' = false /\
  SoundManager.calls (SoundManager.click r s')
    = SoundManager.calls s ++ [SoundManager.play_call; SoundManager.play_call].
Proof.
  destruct s as [playing has cs pd lg tc ap]. simpl.
  intros -> -> ->.
  unfold SoundManager.click, SoundManager.settle, SoundManager.toggleMusic. simpl.
  repeat split.
  destruct r; simpl; now rewrite <- app_assoc.
Qed.

Lemma rejected_play_leaves_the_pause_icon_witness :
  let s := SoundManager.constructor true in
  let s' := SoundManager.settle false (SoundManager.click SoundManager.Promise s) in
  SoundManager.music s = true /\
  SoundManager.isPlaying s = false /\
  SoundManager.pending s = 0%nat /\
  SoundManager.textContent s' = Some SoundManager.pause_icon /\
  SoundManager.aria_pressed s' = Some true /\
  SoundManager.isPlaying s' = false /\
  SoundManager.calls (SoundManager.click SoundManager.NoPromise s')
    = SoundManager.calls s ++ [SoundManager.play_call; SoundManager.play_call].
Proof.
  intros s s'.
  split; [reflexivity|].
  split; [reflexivity|].
  split; [reflexivity|].
  exact (rejected_play_leaves_the_pause_icon s SoundManager.NoPromise
           eq_refl eq_refl eq_refl).
Defined.
